(** * Zoom OAuth / REST wrapper (zoom.py): shallow embedding and properties

    The Python module defines two classes, [ZoomOAuth] and [ZoomAPI].  Every
    method builds a URL, a header dictionary and a payload, hands them to the
    [requests] library and returns the library's response object.

    The embedding keeps that shape:
    - a Python [str] is a list of Unicode code points, [bytes] a list of
      octets; [str.encode('utf-8')], [bytes.decode('utf-8')] and
      [base64.b64encode] are written out;
    - a [dict] is an association list in insertion order;
    - the calls into [requests] are the events of a small free monad, run
      against an arbitrary network that answers or fails to answer, and the
      run records the requests in the order they are issued;
    - Python exceptions are the [Raised] outcome of a run. *)

From Stdlib Require Import List NArith ZArith Bool Ascii String Lia.
Import ListNotations.

Local Open Scope N_scope.
Local Open Scope list_scope.

(** ** Python strings and bytes *)

Module Py.

(** A [str] is a sequence of code points, a [bytes] a sequence of octets. *)
Definition str := list N.
Definition bytes := list N.

(** An ASCII literal of the source, as a [str]. *)
Definition lit (s : string) : str :=
  map N_of_ascii (list_ascii_of_string s).

(** [a == b] *)
Fixpoint str_eqb (a b : str) : bool :=
  match a, b with
  | [], [] => true
  | x :: a', y :: b' => (x =? y) && str_eqb a' b'
  | _, _ => false
  end.

(** [sep.join(parts)] *)
Fixpoint str_join (sep : str) (parts : list str) : str :=
  match parts with
  | [] => []
  | [p] => p
  | p :: rest => p ++ sep ++ str_join sep rest
  end.

(** [s.startswith(p)] *)
Fixpoint startswith (p s : str) : bool :=
  match p, s with
  | [], _ => true
  | _ :: _, [] => false
  | a :: p', b :: s' => (a =? b) && startswith p' s'
  end.

(** [p in s] for strings: [p] occurs in [s] as a contiguous run. *)
Definition Substring (p s : str) : Prop :=
  exists pre post, s = pre ++ p ++ post.

Fixpoint substringb (p s : str) : bool :=
  startswith p s ||
  match s with
  | [] => false
  | _ :: s' => substringb p s'
  end.

(** *** dict: association list in insertion order *)

Section Dict.
Context {V : Type}.

Definition dict := list (str * V).

Fixpoint dict_get (k : str) (d : dict) : option V :=
  match d with
  | [] => None
  | (k', v) :: d' => if str_eqb k k' then Some v else dict_get k d'
  end.

(** [d[k] = v]: an existing key keeps its position, a new one goes last. *)
Fixpoint dict_set (k : str) (v : V) (d : dict) : dict :=
  match d with
  | [] => [(k, v)]
  | (k', v') :: d' =>
      if str_eqb k k' then (k', v) :: d' else (k', v') :: dict_set k v d'
  end.

(** A dict display [{k1: v1, ..., kn: vn}], entries evaluated left to
    right. *)
Definition dict_literal (entries : list (str * V)) : dict :=
  fold_left (fun d kv => dict_set (fst kv) (snd kv) d) entries [].

Definition items (d : dict) : list (str * V) := d.
Definition keys (d : dict) : list str := map fst d.
End Dict.
Arguments dict : clear implicits.

(** *** UTF-8 *)

Definition is_surrogate (c : N) : bool := (0xD800 <=? c) && (c <=? 0xDFFF).

(** One code point to its UTF-8 octets; [None] is [UnicodeEncodeError] (a
    lone surrogate) or a number that is no code point at all. *)
Definition utf8_encode_char (c : N) : option bytes :=
  if c <? 0x80 then Some [c]
  else if c <? 0x800 then
    Some [N.lor 0xC0 (N.shiftr c 6); N.lor 0x80 (N.land c 0x3F)]
  else if c <? 0x10000 then
    if is_surrogate c then None
    else Some [N.lor 0xE0 (N.shiftr c 12);
               N.lor 0x80 (N.land (N.shiftr c 6) 0x3F);
               N.lor 0x80 (N.land c 0x3F)]
  else if c <? 0x110000 then
    Some [N.lor 0xF0 (N.shiftr c 18);
          N.lor 0x80 (N.land (N.shiftr c 12) 0x3F);
          N.lor 0x80 (N.land (N.shiftr c 6) 0x3F);
          N.lor 0x80 (N.land c 0x3F)]
  else None.

(** [s.encode('utf-8')] *)
Fixpoint utf8_encode (s : str) : option bytes :=
  match s with
  | [] => Some []
  | c :: s' =>
      match utf8_encode_char c, utf8_encode s' with
      | Some b, Some bs => Some (b ++ bs)
      | _, _ => None
      end
  end.

Definition is_cont (b : N) : bool := (0x80 <=? b) && (b <=? 0xBF).

(** [b.decode('utf-8')], strict: [None] is [UnicodeDecodeError]. *)
Fixpoint utf8_decode (bs : bytes) : option str :=
  match bs with
  | [] => Some []
  | b0 :: r0 =>
      if b0 <? 0x80 then option_map (cons b0) (utf8_decode r0)
      else if (0xC2 <=? b0) && (b0 <=? 0xDF) then
        match r0 with
        | b1 :: r1 =>
            if is_cont b1 then
              option_map
                (cons (N.lor (N.shiftl (N.land b0 0x1F) 6) (N.land b1 0x3F)))
                (utf8_decode r1)
            else None
        | _ => None
        end
      else if (0xE0 <=? b0) && (b0 <=? 0xEF) then
        match r0 with
        | b1 :: b2 :: r2 =>
            let c := N.lor (N.shiftl (N.land b0 0x0F) 12)
                       (N.lor (N.shiftl (N.land b1 0x3F) 6) (N.land b2 0x3F)) in
            if is_cont b1 && is_cont b2 && (0x800 <=? c)
               && negb (is_surrogate c)
            then option_map (cons c) (utf8_decode r2)
            else None
        | _ => None
        end
      else if (0xF0 <=? b0) && (b0 <=? 0xF4) then
        match r0 with
        | b1 :: b2 :: b3 :: r3 =>
            let c := N.lor (N.shiftl (N.land b0 0x07) 18)
                       (N.lor (N.shiftl (N.land b1 0x3F) 12)
                          (N.lor (N.shiftl (N.land b2 0x3F) 6)
                             (N.land b3 0x3F))) in
            if is_cont b1 && is_cont b2 && is_cont b3
               && (0x10000 <=? c) && (c <? 0x110000)
            then option_map (cons c) (utf8_decode r3)
            else None
        | _ => None
        end
      else None
  end.

(** *** base64 *)

(** The standard alphabet, [A-Za-z0-9+/]. *)
Definition b64_alphabet : str :=
  lit "ABCDEFGHIJKLMNOPQRSTUVWXYZabcdefghijklmnopqrstuvwxyz0123456789+/".

Definition b64_pad : N := 61.

Definition b64_char (i : N) : N := nth (N.to_nat i) b64_alphabet b64_pad.

(** [base64.b64encode(bs)]: three octets become four characters, a last
    group of one or two octets is padded with [=]. *)
Fixpoint b64encode (bs : bytes) : bytes :=
  match bs with
  | [] => []
  | [a] =>
      [b64_char (N.shiftr a 2);
       b64_char (N.shiftl (N.land a 3) 4);
       b64_pad; b64_pad]
  | [a; b] =>
      [b64_char (N.shiftr a 2);
       b64_char (N.lor (N.shiftl (N.land a 3) 4) (N.shiftr b 4));
       b64_char (N.shiftl (N.land b 15) 2);
       b64_pad]
  | a :: b :: c :: rest =>
      b64_char (N.shiftr a 2)
      :: b64_char (N.lor (N.shiftl (N.land a 3) 4) (N.shiftr b 4))
      :: b64_char (N.lor (N.shiftl (N.land b 15) 2) (N.shiftr c 6))
      :: b64_char (N.land c 63)
      :: b64encode rest
  end.

(** Position of a character in the alphabet. *)
Definition b64_index (c : N) : option N :=
  if (65 <=? c) && (c <=? 90) then Some (c - 65)
  else if (97 <=? c) && (c <=? 122) then Some (c - 71)
  else if (48 <=? c) && (c <=? 57) then Some (c + 4)
  else if c =? 43 then Some 62
  else if c =? 47 then Some 63
  else None.

(** [base64.b64decode(cs, validate=True)], the inverse that the encoder is
    checked against below. *)
Fixpoint b64decode (cs : bytes) : option bytes :=
  match cs with
  | [] => Some []
  | c0 :: c1 :: c2 :: c3 :: rest =>
      match b64_index c0, b64_index c1 with
      | Some s0, Some s1 =>
          let a := N.lor (N.shiftl s0 2) (N.shiftr s1 4) in
          if (c2 =? b64_pad) && (c3 =? b64_pad) then
            match rest with
            | [] => Some [a]
            | _ => None
            end
          else
            match b64_index c2 with
            | Some s2 =>
                let b := N.lor (N.shiftl (N.land s1 15) 4) (N.shiftr s2 2) in
                if c3 =? b64_pad then
                  match rest with
                  | [] => Some [a; b]
                  | _ => None
                  end
                else
                  match b64_index c3 with
                  | Some s3 =>
                      let c := N.lor (N.shiftl (N.land s2 3) 6) s3 in
                      option_map (fun t => a :: b :: c :: t) (b64decode rest)
                  | None => None
                  end
            | None => None
            end
      | _, _ => None
      end
  | _ => None
  end.

(** The numbers below [n], for checks by enumeration. *)
Definition below (n : nat) : list N := map N.of_nat (seq 0 n).

End Py.

Import Py.

(** ** Python values, exceptions and outcomes *)

(** The values that travel through the wrapper: method arguments that end up
    in a JSON payload and the result of [Response.json()].  Floats are left
    out; no method computes with a number. *)
#[local] Set Warnings "-register-all".
Inductive pyval : Type :=
| PyNone
| PyBool (b : bool)
| PyInt (z : Z)
| PyStr (s : str)
| PyList (l : list pyval)
| PyDict (d : list (str * pyval)).

(** The exceptions that can leave a method of the module. *)
Inductive exn : Type :=
| UnicodeEncodeError      (* [str.encode] on a lone surrogate *)
| UnicodeDecodeError      (* [bytes.decode] on ill-formed input *)
| RequestException        (* raised by the call into [requests] itself *)
| JSONDecodeError         (* [Response.json()] on a body that is not JSON *)
| KeyError                (* [d[k]] with [k] absent *)
| TypeError.              (* subscript or [+] on a value of the wrong type *)

Inductive result (A : Type) : Type :=
| Returned (a : A)
| Raised (e : exn).
Arguments Returned {A} a.
Arguments Raised {A} e.

(** [v[k]] for a string key [k]. *)
Definition subscript (v : pyval) (k : str) : result pyval :=
  match v with
  | PyDict d =>
      match dict_get k d with
      | Some x => Returned x
      | None => Raised KeyError
      end
  | _ => Raised TypeError
  end.

(** [s + v] where [s] is a [str]. *)
Definition str_add (s : str) (v : pyval) : result str :=
  match v with
  | PyStr t => Returned (s ++ t)
  | _ => Raised TypeError
  end.

(** ** The boundary with [requests] *)

Module Http.

Inductive method : Type := GET | POST | PUT | DELETE.

(** One call [requests.<method>(url, headers=..., params=..., json=...)];
    an argument that the call does not pass is [None] ([params] and [json]
    default to [None] in [requests]). *)
Record Request : Type := mkRequest {
  req_method : method;
  req_url : str;
  req_headers : dict str;
  req_params : option (dict str);
  req_json : option pyval
}.

(** What the wrapper can observe of a [requests.Response]: [resp_json] is
    the value of [Response.json()], [None] when it raises. *)
Record Response : Type := mkResponse {
  status_code : Z;
  resp_headers : dict str;
  content : bytes;
  resp_json : option pyval
}.

(** The network: given the exchanges so far and the next request, it either
    answers or no response arrives (connection failure, timeout). *)
Inductive reply : Type :=
| Answer (r : Response)
| NoAnswer.

Definition Exchange : Type := (Request * reply)%type.

Definition Network := list Exchange -> Request -> reply.

(** Programs over the boundary. *)
Inductive Prog (A : Type) : Type :=
| Ret (a : A)
| Raise (e : exn)
| Send (rq : Request) (k : Response -> Prog A).
Arguments Ret {A} a.
Arguments Raise {A} e.
Arguments Send {A} rq k.

Fixpoint bind {A B} (p : Prog A) (f : A -> Prog B) : Prog B :=
  match p with
  | Ret a => f a
  | Raise e => Raise e
  | Send rq k => Send rq (fun r => bind (k r) f)
  end.

Definition lift {A} (r : result A) : Prog A :=
  match r with
  | Returned a => Ret a
  | Raised e => Raise e
  end.

(** [run p net hist]: the exchanges, oldest first, after [hist], and the
    outcome.  A request that gets no answer was still issued, and the call
    into [requests] raises. *)
Fixpoint run {A} (p : Prog A) (net : Network) (hist : list Exchange)
  : list Exchange * result A :=
  match p with
  | Ret a => (hist, Returned a)
  | Raise e => (hist, Raised e)
  | Send rq k =>
      match net hist rq with
      | Answer r => run (k r) net (hist ++ [(rq, Answer r)])
      | NoAnswer => (hist ++ [(rq, NoAnswer)], Raised RequestException)
      end
  end.

Definition exchanges {A} (p : Prog A) (net : Network) : list Exchange :=
  fst (run p net []).

(** The requests a program issues against [net], in order. *)
Definition requests {A} (p : Prog A) (net : Network) : list Request :=
  map fst (exchanges p net).

(** The responses it receives, in order. *)
Definition responses {A} (p : Prog A) (net : Network) : list Response :=
  flat_map (fun x => match snd x with Answer r => [r] | NoAnswer => [] end)
    (exchanges p net).

Definition outcome {A} (p : Prog A) (net : Network) : result A :=
  snd (run p net []).

(** [requests.get], [requests.post], [requests.put], [requests.delete] *)
Definition requests_get (url : str) (headers : dict str)
    (json : option pyval) : Prog Response :=
  Send (mkRequest GET url headers None json) Ret.

Definition requests_post (url : str) (headers : dict str)
    (params : option (dict str)) (json : option pyval) : Prog Response :=
  Send (mkRequest POST url headers params json) Ret.

Definition requests_put (url : str) (headers : dict str)
    (json : option pyval) : Prog Response :=
  Send (mkRequest PUT url headers None json) Ret.

Definition requests_delete (url : str) (headers : dict str) : Prog Response :=
  Send (mkRequest DELETE url headers None None) Ret.

(** [response.json()] *)
Definition json (r : Response) : result pyval :=
  match resp_json r with
  | Some v => Returned v
  | None => Raised JSONDecodeError
  end.

End Http.

Import Http.

Declare Scope prog_scope.
Delimit Scope prog_scope with prog.
Notation "x <- p ;; q" := (bind p (fun x => q))
  (at level 61, p at next level, right associativity) : prog_scope.
Local Open Scope prog_scope.

(** ** [django.conf.settings] *)

(** The three values the module reads from the host's settings. *)
Record Settings : Type := mkSettings {
  ClientID : str;
  ClientSecret : str;
  Zoom_Redirect_URI : str
}.

(** ** class ZoomOAuth *)

Module ZoomOAuth.

Section ClassBody.
Variable settings : Settings.

(** Class attributes. *)
Definition __client_id : str := ClientID settings.
Definition __client_secret : str := ClientSecret settings.
Definition __auth_url : str := lit "https://zoom.us/oauth/".
Definition __redirect_uri : str := Zoom_Redirect_URI settings.

(** The instance: its only attribute is set by [__init__]. *)
Record t : Type := mk { id_secret_encrypted : str }.

Definition __init__ : result t :=
  match utf8_encode (__client_id ++ lit ":" ++ __client_secret) with
  | None => Raised UnicodeEncodeError
  | Some raw =>
      match utf8_decode (b64encode raw) with
      | None => Raised UnicodeDecodeError
      | Some s => Returned (mk s)
      end
  end.

Definition request_authorization_code (self : t) : str :=
  let params :=
    dict_literal
      [(lit "client_id", __client_id);
       (lit "response_type", lit "code");
       (lit "redirect_uri", __redirect_uri)] in
  let url :=
    __auth_url ++ lit "authorize" ++ lit "?" ++
    str_join (lit "&")
      (map (fun kv => str_join (lit "=") [fst kv; snd kv]) (items params)) in
  url.

Definition get_first_token (self : t) (code : str) : Prog Response :=
  let headers :=
    dict_literal
      [(lit "Content-Type", lit "application/x-www-form-urlencoded");
       (lit "Authorization", lit "Basic " ++ id_secret_encrypted self)] in
  let params :=
    dict_literal
      [(lit "code", code);
       (lit "grant_type", lit "authorization_code");
       (lit "redirect_uri", __redirect_uri)] in
  response <- requests_post (__auth_url ++ lit "token") headers
                (Some params) None ;;
  Ret response.

Definition get_access_token (self : t) (refresh_token : str)
  : Prog Response :=
  let headers :=
    dict_literal
      [(lit "Content-Type", lit "application/x-www-form-urlencoded");
       (lit "Authorization", lit "Basic " ++ id_secret_encrypted self)] in
  let params :=
    dict_literal
      [(lit "grant_type", lit "refresh_token");
       (lit "refresh_token", refresh_token)] in
  response <- requests_post (__auth_url ++ lit "token") headers
                (Some params) None ;;
  Ret response.

Definition revoke_token (self : t) (access_token : str) : Prog Response :=
  let headers :=
    dict_literal
      [(lit "Content-Type", lit "application/x-www-form-urlencoded");
       (lit "Authorization", lit "Basic " ++ id_secret_encrypted self)] in
  let params := dict_literal [(lit "token", access_token)] in
  response <- requests_post (__auth_url ++ lit "revoke") headers
                (Some params) None ;;
  Ret response.
End ClassBody.

End ZoomOAuth.

(** ** class ZoomAPI *)

Module ZoomAPI.

Definition __api_url : str := lit "https://api.zoom.us/v2/".

Section ClassBody.
Variable settings : Settings.

(** The expression every method evaluates first,
    ['Bearer ' + ZoomOAuth().get_access_token(refresh_token=refresh_token).json()['access_token']]:
    construct a [ZoomOAuth], refresh, parse the body, subscript, add. *)
Definition bearer (refresh_token : str) : Prog str :=
  oauth <- lift (ZoomOAuth.__init__ settings) ;;
  response <- ZoomOAuth.get_access_token oauth refresh_token ;;
  body <- lift (json response) ;;
  token <- lift (subscript body (lit "access_token")) ;;
  lift (str_add (lit "Bearer ") token).

Definition get_user_zak (refresh_token : str) : Prog Response :=
  auth <- bearer refresh_token ;;
  let headers := dict_literal [(lit "Authorization", auth)] in
  response <- requests_get (__api_url ++ lit "users/me/zak") headers None ;;
  Ret response.

(** [type] is the keyword argument with default [2]; [None] here is the
    argument left out. *)
Definition create_meeting (refresh_token : str)
    (meeting_name start_time duration timezone agenda settings' : pyval)
    (type : option pyval) : Prog Response :=
  let type := match type with Some v => v | None => PyInt 2 end in
  auth <- bearer refresh_token ;;
  let headers := dict_literal [(lit "Authorization", auth)] in
  let data :=
    dict_literal
      [(lit "topic", meeting_name);
       (lit "start_time", start_time);
       (lit "duration", duration);
       (lit "timezone", timezone);
       (lit "agenda", agenda);
       (lit "settings", settings');
       (lit "type", type)] in
  response <- requests_post (__api_url ++ lit "users/me/meetings") headers
                None (Some (PyDict data)) ;;
  Ret response.

Definition get_meetings (refresh_token : str) : Prog Response :=
  auth <- bearer refresh_token ;;
  let headers := dict_literal [(lit "Authorization", auth)] in
  response <- requests_get (__api_url ++ lit "users/me/meetings") headers
                None ;;
  Ret response.

Definition get_meeting_details (refresh_token : str) (meeting_id : pyval)
  : Prog Response :=
  auth <- bearer refresh_token ;;
  let headers := dict_literal [(lit "Authorization", auth)] in
  url <- lift (str_add (__api_url ++ lit "meetings/") meeting_id) ;;
  response <- requests_get url headers None ;;
  Ret response.

Definition delete_meeting (refresh_token : str) (meeting_id : pyval)
  : Prog Response :=
  auth <- bearer refresh_token ;;
  let headers := dict_literal [(lit "Authorization", auth)] in
  url <- lift (str_add (__api_url ++ lit "meetings/") meeting_id) ;;
  response <- requests_delete url headers ;;
  Ret response.

Definition update_meeting (refresh_token : str) (meeting_id : pyval)
    (meeting_name start_time duration timezone agenda recurrence
       settings' : pyval)
    (type : option pyval) : Prog Response :=
  let type := match type with Some v => v | None => PyInt 2 end in
  auth <- bearer refresh_token ;;
  let headers := dict_literal [(lit "Authorization", auth)] in
  let data :=
    dict_literal
      [(lit "topic", meeting_name);
       (lit "start_time", start_time);
       (lit "duration", duration);
       (lit "timezone", timezone);
       (lit "agenda", agenda);
       (lit "recurrence", recurrence);
       (lit "settings", settings');
       (lit "type", type)] in
  url <- lift (str_add (__api_url ++ lit "meetings/") meeting_id) ;;
  response <- requests_put url headers (Some (PyDict data)) ;;
  Ret response.

Definition update_meeting_status (refresh_token : str)
    (meeting_id status : pyval) : Prog Response :=
  auth <- bearer refresh_token ;;
  let headers := dict_literal [(lit "Authorization", auth)] in
  let data := dict_literal [(lit "status", status)] in
  url <- lift (str_add (__api_url ++ lit "meetings/") meeting_id) ;;
  response <- requests_put url headers (Some (PyDict data)) ;;
  Ret response.

Definition list_users (refresh_token : str) : Prog Response :=
  auth <- bearer refresh_token ;;
  let headers := dict_literal [(lit "Authorization", auth)] in
  response <- requests_get (__api_url ++ lit "users") headers None ;;
  Ret response.

Definition get_user_details (refresh_token : str) (user_id : pyval)
  : Prog Response :=
  auth <- bearer refresh_token ;;
  let headers := dict_literal [(lit "Authorization", auth)] in
  url <- lift (str_add (__api_url ++ lit "users/") user_id) ;;
  response <- requests_get url headers None ;;
  Ret response.

Definition check_user_email (refresh_token : str) (email : pyval)
  : Prog Response :=
  auth <- bearer refresh_token ;;
  let headers := dict_literal [(lit "Authorization", auth)] in
  let data := dict_literal [(lit "email", email)] in
  response <- requests_get (__api_url ++ lit "users/email") headers
                (Some (PyDict data)) ;;
  Ret response.
End ClassBody.

End ZoomAPI.

(** ** The operations of ZoomAPI as data *)

(** One constructor per public method, carrying the method's arguments other
    than the refresh token, so that a statement can range over all of them. *)
Inductive Op : Type :=
| GetUserZak
| CreateMeeting (meeting_name start_time duration timezone agenda
                   settings' : pyval) (type : option pyval)
| GetMeetings
| GetMeetingDetails (meeting_id : pyval)
| DeleteMeeting (meeting_id : pyval)
| UpdateMeeting (meeting_id : pyval)
                (meeting_name start_time duration timezone agenda recurrence
                   settings' : pyval) (type : option pyval)
| UpdateMeetingStatus (meeting_id status : pyval)
| ListUsers
| GetUserDetails (user_id : pyval)
| CheckUserEmail (email : pyval).

Definition call (settings : Settings) (refresh_token : str) (op : Op)
  : Prog Response :=
  match op with
  | GetUserZak => ZoomAPI.get_user_zak settings refresh_token
  | CreateMeeting n s d z a g t =>
      ZoomAPI.create_meeting settings refresh_token n s d z a g t
  | GetMeetings => ZoomAPI.get_meetings settings refresh_token
  | GetMeetingDetails i =>
      ZoomAPI.get_meeting_details settings refresh_token i
  | DeleteMeeting i => ZoomAPI.delete_meeting settings refresh_token i
  | UpdateMeeting i n s d z a r g t =>
      ZoomAPI.update_meeting settings refresh_token i n s d z a r g t
  | UpdateMeetingStatus i st =>
      ZoomAPI.update_meeting_status settings refresh_token i st
  | ListUsers => ZoomAPI.list_users settings refresh_token
  | GetUserDetails i => ZoomAPI.get_user_details settings refresh_token i
  | CheckUserEmail e => ZoomAPI.check_user_email settings refresh_token e
  end.

(** The identifier an operation splices into its path, when it has one. *)
Definition path_argument (op : Op) : option pyval :=
  match op with
  | GetMeetingDetails i | DeleteMeeting i | UpdateMeeting i _ _ _ _ _ _ _ _
  | UpdateMeetingStatus i _ | GetUserDetails i => Some i
  | _ => None
  end.

(** An operation is well-typed when that identifier is a [str]. *)
Definition well_typed (op : Op) : bool :=
  match path_argument op with
  | Some (PyStr _) | None => true
  | Some _ => false
  end.

(** *** The operations table of the specification

    Method and path of each operation, as the specification's table lists
    them; compared below with what the methods send. *)
Definition table_method (op : Op) : method :=
  match op with
  | GetUserZak => GET
  | CreateMeeting _ _ _ _ _ _ _ => POST
  | GetMeetings => GET
  | GetMeetingDetails _ => GET
  | DeleteMeeting _ => DELETE
  | UpdateMeeting _ _ _ _ _ _ _ _ _ => PUT
  | UpdateMeetingStatus _ _ => PUT
  | ListUsers => GET
  | GetUserDetails _ => GET
  | CheckUserEmail _ => GET
  end.

Definition id_text (v : pyval) : str :=
  match v with
  | PyStr s => s
  | _ => []
  end.

Definition table_path (op : Op) : str :=
  match op with
  | GetUserZak => lit "users/me/zak"
  | CreateMeeting _ _ _ _ _ _ _ => lit "users/me/meetings"
  | GetMeetings => lit "users/me/meetings"
  | GetMeetingDetails i => lit "meetings/" ++ id_text i
  | DeleteMeeting i => lit "meetings/" ++ id_text i
  | UpdateMeeting i _ _ _ _ _ _ _ _ => lit "meetings/" ++ id_text i
  | UpdateMeetingStatus i _ => lit "meetings/" ++ id_text i
  | ListUsers => lit "users"
  | GetUserDetails i => lit "users/" ++ id_text i
  | CheckUserEmail _ => lit "users/email"
  end.

(** ** Reference points for the statements *)

(** The token-refresh request: a POST to the OAuth token endpoint with the
    Basic credentials and the refresh token. *)
Definition refresh_request (oauth : ZoomOAuth.t) (refresh_token : str)
  : Request :=
  mkRequest POST (lit "https://zoom.us/oauth/token")
    [(lit "Content-Type", lit "application/x-www-form-urlencoded");
     (lit "Authorization",
      lit "Basic " ++ ZoomOAuth.id_secret_encrypted oauth)]
    (Some [(lit "grant_type", lit "refresh_token");
           (lit "refresh_token", refresh_token)])
    None.

(** The access token a reply to the refresh request hands to the wrapper:
    the body is a JSON object whose [access_token] is a string. *)
Definition granted_token (rp : reply) : option str :=
  match rp with
  | Answer r =>
      match resp_json r with
      | Some (PyDict d) =>
          match dict_get (lit "access_token") d with
          | Some (PyStr tok) => Some tok
          | _ => None
          end
      | _ => None
      end
  | NoAnswer => None
  end.

Definition is_raised {A} (r : result A) : bool :=
  match r with
  | Raised _ => true
  | Returned _ => false
  end.

(** Code points that [str.encode('utf-8')] accepts. *)
Definition is_scalar (c : N) : bool := (c <? 0x110000) && negb (is_surrogate c).

Definition ascii_only (bs : bytes) : Prop := Forall (fun b => b < 0x80) bs.

(** The exception the header expression raises when the reply to the
    refresh request hands over no token. *)
Definition refresh_failure (rp : reply) : exn :=
  match rp with
  | NoAnswer => RequestException
  | Answer r =>
      match resp_json r with
      | None => JSONDecodeError
      | Some (PyDict d) =>
          match dict_get (lit "access_token") d with
          | None => KeyError
          | Some _ => TypeError
          end
      | Some _ => TypeError
      end
  end.

(** The JSON payload of each operation, written out. *)
Definition payload (op : Op) : option pyval :=
  match op with
  | CreateMeeting n s d z a g t =>
      Some (PyDict
        [(lit "topic", n); (lit "start_time", s); (lit "duration", d);
         (lit "timezone", z); (lit "agenda", a); (lit "settings", g);
         (lit "type", match t with Some v => v | None => PyInt 2 end)])
  | UpdateMeeting _ n s d z a r g t =>
      Some (PyDict
        [(lit "topic", n); (lit "start_time", s); (lit "duration", d);
         (lit "timezone", z); (lit "agenda", a); (lit "recurrence", r);
         (lit "settings", g);
         (lit "type", match t with Some v => v | None => PyInt 2 end)])
  | UpdateMeetingStatus _ st => Some (PyDict [(lit "status", st)])
  | CheckUserEmail e => Some (PyDict [(lit "email", e)])
  | _ => None
  end.

(** The resource request of an operation holding the access token [tok]:
    method and path from the table, the bearer header, the payload. *)
Definition resource_request (op : Op) (tok : str) : Request :=
  mkRequest (table_method op)
    (lit "https://api.zoom.us/v2/" ++ table_path op)
    [(lit "Authorization", lit "Bearer " ++ tok)]
    None
    (payload op).

Definition non_2xx (r : Response) : Prop :=
  (status_code r < 200 \/ 300 <= status_code r)%Z.

Definition is_4xx (r : Response) : Prop :=
  (400 <= status_code r < 500)%Z.

(** *** Readings of the specification that the code is compared with *)

(** "Each APIClient operation issues exactly one token-refresh call followed
    by exactly one resource call, in that order", for one call. *)
Definition one_refresh_then_one_resource
    (settings : Settings) (refresh_token : str) (op : Op) (net : Network)
  : Prop :=
  exists rq1 rq2,
    requests (call settings refresh_token op) net = [rq1; rq2]
    /\ req_method rq1 = POST
    /\ req_url rq1 = lit "https://zoom.us/oauth/token"
    /\ req_method rq2 = table_method op
    /\ req_url rq2 = lit "https://api.zoom.us/v2/" ++ table_path op.

(** "The wrapper does not throw on non-2xx", whichever of the two calls the
    response answers. *)
Definition returns_on_error_status
    (settings : Settings) (refresh_token : str) (op : Op) (net : Network)
  : Prop :=
  (exists r, In r (responses (call settings refresh_token op) net)
             /\ non_2xx r) ->
  exists r, outcome (call settings refresh_token op) net = Returned r.

(** "Fails with AuthError if the provider returns 4xx". *)
Definition fails_on_4xx
    (settings : Settings) (oauth : ZoomOAuth.t) (code : str) (net : Network)
  : Prop :=
  (exists r,
      In r (responses (ZoomOAuth.get_first_token settings oauth code) net)
      /\ is_4xx r) ->
  is_raised (outcome (ZoomOAuth.get_first_token settings oauth code) net)
  = true.

(** "Authorization URL always contains client_id, response_type=code, and
    the configured redirect_uri, and never contains the client secret". *)
Definition authorization_url_as_specified (settings : Settings) (url : str)
  : Prop :=
  Substring (lit "client_id=" ++ ClientID settings) url
  /\ Substring (lit "response_type=code") url
  /\ Substring (lit "redirect_uri=" ++ Zoom_Redirect_URI settings) url
  /\ ~ Substring (ClientSecret settings) url.

(** The text of the authorization URL that comes from neither setting. *)
Definition authorization_url_fixed_text : str :=
  lit "https://zoom.us/oauth/authorize?client_id=&response_type=code&redirect_uri=".

(** *** Sample data *)

Definition quoted (s : string) : str := [34] ++ lit s ++ [34].

Definition sample_settings : Settings :=
  mkSettings (lit "abc123") (lit "s3cr3t!")
    (lit "https://example.com/callback").

(** A secret that happens to be a word of the URL. *)
Definition unlucky_settings : Settings :=
  mkSettings (lit "abc123") (lit "oauth")
    (lit "https://example.com/callback").

(** Client id and redirect URI with reserved characters. *)
Definition reserved_settings : Settings :=
  mkSettings (lit "a&b=c") (lit "s3cr3t")
    (lit "https://example.com/cb?next=/home&x=1").

Definition sample_oauth : ZoomOAuth.t :=
  ZoomOAuth.mk (lit "YWJjMTIzOnMzY3IzdCE=").

(** The provider's answer to a bad code or refresh token: status 400 and an
    error object without [access_token]. *)
Definition invalid_grant_response : Response :=
  mkResponse 400
    [(lit "Content-Type", lit "application/json;charset=UTF-8")]
    (lit "{" ++ quoted "reason" ++ lit ":" ++ quoted "Invalid Token!"
     ++ lit "," ++ quoted "error" ++ lit ":" ++ quoted "invalid_grant"
     ++ lit "}")
    (Some (PyDict [(lit "reason", PyStr (lit "Invalid Token!"));
                   (lit "error", PyStr (lit "invalid_grant"))])).

Definition token_response : Response :=
  mkResponse 200
    [(lit "Content-Type", lit "application/json;charset=UTF-8")]
    (lit "{" ++ quoted "access_token" ++ lit ":" ++ quoted "AT1"
     ++ lit "," ++ quoted "token_type" ++ lit ":" ++ quoted "bearer"
     ++ lit "," ++ quoted "refresh_token" ++ lit ":" ++ quoted "RT2"
     ++ lit "," ++ quoted "expires_in" ++ lit ":3599}")
    (Some (PyDict [(lit "access_token", PyStr (lit "AT1"));
                   (lit "token_type", PyStr (lit "bearer"));
                   (lit "refresh_token", PyStr (lit "RT2"));
                   (lit "expires_in", PyInt 3599)])).

Definition not_found_response : Response :=
  mkResponse 404
    [(lit "Content-Type", lit "application/json;charset=UTF-8")]
    (lit "{" ++ quoted "code" ++ lit ":3001," ++ quoted "message"
     ++ lit ":" ++ quoted "Meeting does not exist." ++ lit "}")
    (Some (PyDict [(lit "code", PyInt 3001);
                   (lit "message", PyStr (lit "Meeting does not exist."))])).

(** A provider that rejects every request to the token endpoint. *)
Definition rejecting_network : Network :=
  fun _ _ => Answer invalid_grant_response.

(** A provider that grants a token and answers every resource request with
    404. *)
Definition granting_network : Network :=
  fun _ rq =>
    if str_eqb (req_url rq) (lit "https://zoom.us/oauth/token")
    then Answer token_response
    else Answer not_found_response.

(** *** Further reference points *)

(** [s.split(sep)] for a separator of one character. *)
Fixpoint split_on (sep : N) (s : str) : list str :=
  match s with
  | [] => [[]]
  | c :: s' =>
      if c =? sep then [] :: split_on sep s'
      else
        match split_on sep s' with
        | piece :: pieces => (c :: piece) :: pieces
        | [] => [[c]]
        end
  end.

(** [s.partition(sep)] for a separator of one character: what stands
    before its first occurrence and what stands after it; without an
    occurrence, all of [s] and [None]. *)
Fixpoint partition_on (sep : N) (s : str) : str * option str :=
  match s with
  | [] => ([], None)
  | c :: s' =>
      if c =? sep then ([], Some s')
      else
        let (before, after) := partition_on sep s' in
        (c :: before, after)
  end.

(** How the receiver of a URL takes its query apart: pieces between [&],
    each cut at its first [=]. *)
Definition parse_query (query : str) : list (str * option str) :=
  map (partition_on 61) (split_on 38 query).

(** Two statements of a caller, one after the other. *)
Definition in_sequence {A B} (first : Prog A) (second : Prog B) : Prog B :=
  _ <- first ;; second.

(** The two kinds of request the module sends. *)
Definition is_oauth_request (rq : Request) : Prop :=
  req_method rq = POST
  /\ startswith (lit "https://zoom.us/oauth/") (req_url rq) = true
  /\ (exists basic,
        req_headers rq
        = [(lit "Content-Type", lit "application/x-www-form-urlencoded");
           (lit "Authorization", lit "Basic " ++ basic)])
  /\ req_params rq <> None
  /\ req_json rq = None.

Definition is_api_request (rq : Request) : Prop :=
  startswith (lit "https://api.zoom.us/v2/") (req_url rq) = true
  /\ (exists tok,
        req_headers rq = [(lit "Authorization", lit "Bearer " ++ tok)])
  /\ req_params rq = None.

(** Settings whose client id ends in a lone surrogate. *)
Definition surrogate_settings : Settings :=
  mkSettings [0x61; 0xDC00] (lit "s3cr3t") (lit "https://example.com/callback").

(** Two credential pairs that differ only in where the colon belongs. *)
Definition colon_settings_1 : Settings :=
  mkSettings (lit "a:b") (lit "c") (lit "https://example.com/callback").

Definition colon_settings_2 : Settings :=
  mkSettings (lit "a") (lit "b:c") (lit "https://example.com/callback").

(** A provider that answers the refresh with status 500 and a body that
    holds nothing but the token, and does not answer anything else. *)
Definition terse_token_response : Response :=
  mkResponse 500 [] []
    (Some (PyDict [(lit "access_token", PyStr (lit "AT1"))])).

Definition terse_network : Network :=
  fun _ rq =>
    if str_eqb (req_url rq) (lit "https://zoom.us/oauth/token")
    then Answer terse_token_response
    else NoAnswer.

(** The sample credentials with another redirect URI. *)
Definition moved_settings : Settings :=
  mkSettings (lit "abc123") (lit "s3cr3t!") (lit "https://example.org/other").

(** *** The request claims of the specification, read for every call *)

Definition is_get (rq : Request) : bool :=
  match req_method rq with
  | GET => true
  | _ => false
  end.

(** "update_meeting_status issues PUT to meetings/{meeting_id} with the
    status as its only body field", for one call. *)
Definition status_put_issued (settings : Settings)
    (refresh_token meeting_id : str) (status : pyval) (net : Network)
  : Prop :=
  exists put,
    In put
      (requests
         (ZoomAPI.update_meeting_status settings refresh_token
            (PyStr meeting_id) status) net)
    /\ req_method put = PUT
    /\ req_url put = ZoomAPI.__api_url ++ lit "meetings/" ++ meeting_id
    /\ req_json put = Some (PyDict [(lit "status", status)]).

(** "update_meeting issues PUT to meetings/{meeting_id} with the full
    meeting fields", for one call. *)
Definition full_put_issued (settings : Settings)
    (refresh_token meeting_id : str)
    (meeting_name start_time duration timezone agenda recurrence
       settings' : pyval)
    (type : option pyval) (net : Network) : Prop :=
  exists put body,
    In put
      (requests
         (ZoomAPI.update_meeting settings refresh_token (PyStr meeting_id)
            meeting_name start_time duration timezone agenda recurrence
            settings' type) net)
    /\ req_method put = PUT
    /\ req_url put = ZoomAPI.__api_url ++ lit "meetings/" ++ meeting_id
    /\ req_json put = Some (PyDict body)
    /\ keys body
       = map lit ["topic"; "start_time"; "duration"; "timezone"; "agenda";
                  "recurrence"; "settings"; "type"]%string.

(** "check_user_email issues exactly one GET to users/email carrying the
    email", for one call. *)
Definition one_get_issued (settings : Settings) (refresh_token : str)
    (email : pyval) (net : Network) : Prop :=
  exists get,
    filter is_get
      (requests (ZoomAPI.check_user_email settings refresh_token email) net)
    = [get]
    /\ req_url get = ZoomAPI.__api_url ++ lit "users/email"
    /\ req_json get = Some (PyDict [(lit "email", email)]).

(** * Properties *)

(** ** Strings, UTF-8 and base64 *)

Lemma lit_app (a b : string) : lit (a ++ b)%string = lit a ++ lit b.
Proof.
  unfold lit. induction a as [|c a IH]; simpl; [reflexivity|].
  now rewrite IH.
Qed.

Lemma str_eqb_eq (a b : str) : str_eqb a b = true <-> a = b.
Proof.
  revert b. induction a as [|x a IH]; intros [|y b]; simpl;
    try (split; [discriminate | discriminate]); [tauto|].
  rewrite andb_true_iff, N.eqb_eq, IH. split.
  - intros [-> ->]. reflexivity.
  - intros H. injection H as -> ->. split; reflexivity.
Qed.

Lemma str_eqb_refl (a : str) : str_eqb a a = true.
Proof. now apply str_eqb_eq. Qed.

Lemma startswith_app (p s : str) : startswith p (p ++ s) = true.
Proof.
  induction p as [|a p IH]; simpl; [reflexivity|].
  now rewrite N.eqb_refl, IH.
Qed.

Lemma startswith_prefix (p s : str) :
  startswith p s = true -> exists post, s = p ++ post.
Proof.
  revert s. induction p as [|a p IH]; intros s H; simpl in *.
  - now exists s.
  - destruct s as [|b s]; [discriminate|].
    apply andb_true_iff in H as [Hab Hps]. apply N.eqb_eq in Hab as ->.
    destruct (IH _ Hps) as [post ->]. now exists post.
Qed.

Lemma substringb_spec (p s : str) : substringb p s = true <-> Substring p s.
Proof.
  split.
  - induction s as [|c s IH]; simpl; intros H.
    + rewrite orb_false_r in H. apply startswith_prefix in H as [post ->].
      now exists [], post.
    + apply orb_true_iff in H as [H|H].
      * apply startswith_prefix in H as [post ->]. now exists [], post.
      * destruct (IH H) as (pre & post & ->). now exists (c :: pre), post.
  - intros (pre & post & ->).
    induction pre as [|c pre IH]; simpl.
    + pose proof (startswith_app p post) as H.
      destruct (p ++ post); simpl; rewrite H; reflexivity.
    + rewrite IH. apply orb_true_r.
Qed.

Lemma not_In_existsb (c : N) (s : str) :
  existsb (N.eqb c) s = false -> ~ In c s.
Proof.
  intros H Hin. assert (existsb (N.eqb c) s = true) as H'.
  { apply existsb_exists. exists c. split; [exact Hin | apply N.eqb_refl]. }
  congruence.
Qed.

Lemma Substring_In (p s : str) (c : N) : Substring p s -> In c p -> In c s.
Proof.
  intros (pre & post & ->) H. apply in_or_app. right.
  apply in_or_app. now left.
Qed.

(** Induction over a list three elements at a time, the way [b64encode]
    walks its input. *)
Lemma list_ind3 {A} (P : list A -> Prop) :
  P [] -> (forall a, P [a]) -> (forall a b, P [a; b]) ->
  (forall a b c l, P l -> P (a :: b :: c :: l)) ->
  forall l, P l.
Proof.
  intros H0 H1 H2 H3.
  assert (H : forall l, P l /\ (forall a, P (a :: l))
                        /\ (forall a b, P (a :: b :: l))).
  { induction l as [|x l (IHa & IHb & IHc)].
    - repeat split; auto.
    - repeat split; auto. }
  intro l. apply H.
Qed.

Lemma b64_char_ascii (i : N) : b64_char i < 0x80.
Proof.
  unfold b64_char. generalize (N.to_nat i). intro n.
  do 64 (destruct n as [|n]; [reflexivity|]).
  destruct n; reflexivity.
Qed.

Lemma b64encode_ascii (bs : bytes) : ascii_only (b64encode bs).
Proof.
  induction bs as [| a | a b | a b c l IH] using list_ind3; simpl;
    repeat (constructor; try apply b64_char_ascii; try reflexivity).
  exact IH.
Qed.

Lemma b64encode_length (bs : bytes) :
  (List.length (b64encode bs) = 4 * ((List.length bs + 2) / 3))%nat.
Proof.
  induction bs as [| a | a b | a b c l IH] using list_ind3;
    try reflexivity.
  cbn [b64encode List.length]. rewrite IH.
  replace (S (S (S (List.length l))) + 2)%nat
    with (List.length l + 2 + 1 * 3)%nat by lia.
  rewrite Nat.div_add by lia. lia.
Qed.

Lemma utf8_decode_ascii (bs : bytes) :
  ascii_only bs -> utf8_decode bs = Some bs.
Proof.
  induction 1 as [|b bs Hb _ IH]; [reflexivity|].
  simpl. apply N.ltb_lt in Hb. rewrite Hb, IH. reflexivity.
Qed.

Lemma utf8_encode_char_scalar (c : N) :
  is_scalar c = true -> exists b, utf8_encode_char c = Some b.
Proof.
  unfold is_scalar, utf8_encode_char. intros H.
  apply andb_true_iff in H as [Hlt Hs]. apply negb_true_iff in Hs.
  rewrite Hs, Hlt.
  destruct (c <? 0x80); [eauto|].
  destruct (c <? 0x800); [eauto|].
  destruct (c <? 0x10000); eauto.
Qed.

Lemma utf8_encode_total (s : str) :
  forallb is_scalar s = true -> exists raw, utf8_encode s = Some raw.
Proof.
  induction s as [|c s IH]; simpl; intros H; [eauto|].
  apply andb_true_iff in H as [Hc Hs].
  destruct (utf8_encode_char_scalar c Hc) as [b ->].
  destruct (IH Hs) as [raw ->]. eauto.
Qed.

Lemma utf8_encode_ascii (s : str) : ascii_only s -> utf8_encode s = Some s.
Proof.
  induction 1 as [|c s Hc _ IH]; [reflexivity|].
  simpl. unfold utf8_encode_char. apply N.ltb_lt in Hc.
  rewrite Hc, IH. reflexivity.
Qed.

(** The test vectors of RFC 4648, section 10, and two encodings that leave
    ASCII. *)
Example b64encode_rfc4648 :
  map (fun s => b64encode (lit s)) ["f"; "fo"; "foo"; "foob"; "fooba"; "foobar"]%string
  = map lit ["Zg=="; "Zm8="; "Zm9v"; "Zm9vYg=="; "Zm9vYmE="; "Zm9vYmFy"]%string.
Proof. reflexivity. Qed.

Example utf8_encode_samples :
  utf8_encode [0xE9; 0x20AC; 0x1F600]
  = Some [0xC3; 0xA9; 0xE2; 0x82; 0xAC; 0xF0; 0x9F; 0x98; 0x80]
  /\ utf8_encode [0x61; 0xD800] = None
  /\ utf8_decode [0xC3; 0xA9; 0xE2; 0x82; 0xAC; 0xF0; 0x9F; 0x98; 0x80]
     = Some [0xE9; 0x20AC; 0x1F600].
Proof. repeat split. Qed.

(** The ends of the four UTF-8 ranges and of the surrogate gap. *)
Example utf8_encode_boundaries :
  map utf8_encode_char
    [0x7F; 0x80; 0x7FF; 0x800; 0xD7FF; 0xD800; 0xDFFF; 0xE000; 0xFFFF;
     0x10000; 0x10FFFF; 0x110000]
  = [Some [0x7F]; Some [0xC2; 0x80]; Some [0xDF; 0xBF];
     Some [0xE0; 0xA0; 0x80]; Some [0xED; 0x9F; 0xBF]; None; None;
     Some [0xEE; 0x80; 0x80]; Some [0xEF; 0xBF; 0xBF];
     Some [0xF0; 0x90; 0x80; 0x80]; Some [0xF4; 0x8F; 0xBF; 0xBF]; None].
Proof. reflexivity. Qed.

(** *** base64 decodes back *)

Lemma below_complete (n : nat) (P : N -> bool) :
  forallb P (below n) = true -> forall x, x < N.of_nat n -> P x = true.
Proof.
  intros H x Hx. rewrite forallb_forall in H. apply H. unfold below.
  apply in_map_iff. exists (N.to_nat x). split; [apply N2Nat.id|].
  apply in_seq. lia.
Qed.

Lemma b64_index_char (i : N) :
  i < 64 ->
  b64_index (b64_char i) = Some i /\ (b64_char i =? b64_pad) = false.
Proof.
  intros Hi.
  assert (Hall : forallb
            (fun i => match b64_index (b64_char i) with
                      | Some j => (j =? i) && negb (b64_char i =? b64_pad)
                      | None => false
                      end) (below 64) = true) by (vm_compute; reflexivity).
  pose proof (below_complete 64 _ Hall i Hi) as H.
  cbv beta in H. destruct (b64_index (b64_char i)) as [j|]; [|discriminate].
  apply andb_true_iff in H as [Hj Hp]. apply N.eqb_eq in Hj as ->.
  apply negb_true_iff in Hp. now split.
Qed.

(** One octet splits into a high and a low part and is their union. *)
Lemma octet_parts (a : N) :
  a < 256 ->
  N.shiftr a 2 < 64 /\ N.land a 63 < 64
  /\ N.lor (N.shiftl (N.shiftr a 2) 2) (N.land a 3) = a
  /\ N.lor (N.shiftl (N.shiftr a 4) 4) (N.land a 15) = a
  /\ N.lor (N.shiftl (N.shiftr a 6) 6) (N.land a 63) = a.
Proof.
  intros Ha.
  assert (Hall : forallb
            (fun a => (N.shiftr a 2 <? 64) && (N.land a 63 <? 64)
              && (N.lor (N.shiftl (N.shiftr a 2) 2) (N.land a 3) =? a)
              && (N.lor (N.shiftl (N.shiftr a 4) 4) (N.land a 15) =? a)
              && (N.lor (N.shiftl (N.shiftr a 6) 6) (N.land a 63) =? a))
            (below 256) = true) by (vm_compute; reflexivity).
  pose proof (below_complete 256 _ Hall a Ha) as H.
  cbv beta in H. rewrite !andb_true_iff, !N.ltb_lt, !N.eqb_eq in H. tauto.
Qed.

(** The second sextet of a group holds the low two bits of the first octet
    and the high four of the second. *)
Lemma sextet_1 (a b : N) :
  a < 256 -> b < 256 ->
  let s := N.lor (N.shiftl (N.land a 3) 4) (N.shiftr b 4) in
  s < 64 /\ N.shiftr s 4 = N.land a 3 /\ N.land s 15 = N.shiftr b 4.
Proof.
  intros Ha Hb s. subst s.
  assert (Hall : forallb
            (fun a => forallb
               (fun b =>
                  let s := N.lor (N.shiftl (N.land a 3) 4) (N.shiftr b 4) in
                  (s <? 64) && (N.shiftr s 4 =? N.land a 3)
                  && (N.land s 15 =? N.shiftr b 4))
               (below 256))
            (below 256) = true) by (vm_compute; reflexivity).
  pose proof (below_complete 256 _ Hall a Ha) as H.
  cbv beta in H. apply (below_complete 256 _ H b) in Hb. cbv zeta in Hb.
  rewrite !andb_true_iff, !N.ltb_lt, !N.eqb_eq in Hb. tauto.
Qed.

(** The third holds the low four bits of the second octet and the high two
    of the third. *)
Lemma sextet_2 (b c : N) :
  b < 256 -> c < 256 ->
  let s := N.lor (N.shiftl (N.land b 15) 2) (N.shiftr c 6) in
  s < 64 /\ N.shiftr s 2 = N.land b 15 /\ N.land s 3 = N.shiftr c 6.
Proof.
  intros Hb Hc s. subst s.
  assert (Hall : forallb
            (fun b => forallb
               (fun c =>
                  let s := N.lor (N.shiftl (N.land b 15) 2) (N.shiftr c 6) in
                  (s <? 64) && (N.shiftr s 2 =? N.land b 15)
                  && (N.land s 3 =? N.shiftr c 6))
               (below 256))
            (below 256) = true) by (vm_compute; reflexivity).
  pose proof (below_complete 256 _ Hall b Hb) as H.
  cbv beta in H. apply (below_complete 256 _ H c) in Hc. cbv zeta in Hc.
  rewrite !andb_true_iff, !N.ltb_lt, !N.eqb_eq in Hc. tauto.
Qed.

Lemma b64decode_group (c0 c1 c2 c3 s0 s1 s2 s3 : N) (rest : bytes) :
  b64_index c0 = Some s0 -> b64_index c1 = Some s1 ->
  b64_index c2 = Some s2 -> b64_index c3 = Some s3 ->
  (c2 =? b64_pad) = false -> (c3 =? b64_pad) = false ->
  b64decode (c0 :: c1 :: c2 :: c3 :: rest) =
  option_map
    (fun t => N.lor (N.shiftl s0 2) (N.shiftr s1 4)
              :: N.lor (N.shiftl (N.land s1 15) 4) (N.shiftr s2 2)
              :: N.lor (N.shiftl (N.land s2 3) 6) s3 :: t)
    (b64decode rest).
Proof.
  intros H0 H1 H2 H3 P2 P3. cbn [b64decode].
  rewrite H0, H1, H2, H3, P2, P3. reflexivity.
Qed.

(** Decoding the encoding of octets gives the octets back: the header value
    determines the credentials. *)
Lemma b64decode_b64encode (bs : bytes) :
  Forall (fun b => b < 256) bs -> b64decode (b64encode bs) = Some bs.
Proof.
  induction bs as [| a | a b | a b c l IH] using list_ind3; intros Hbs.
  - reflexivity.
  - inversion_clear Hbs as [|? ? Ha _].
    assert (Hall : forallb
              (fun a => match b64decode (b64encode [a]) with
                        | Some [a'] => a' =? a
                        | _ => false
                        end) (below 256) = true) by (vm_compute; reflexivity).
    pose proof (below_complete 256 _ Hall a Ha) as H.
    cbv beta in H.
    destruct (b64decode (b64encode [a])) as [[|a' [|]]|]; try discriminate.
    apply N.eqb_eq in H as ->. reflexivity.
  - inversion_clear Hbs as [|? ? Ha Hbs']. inversion_clear Hbs' as [|? ? Hb _].
    destruct (octet_parts a Ha) as (Ha0 & _ & Ha2 & _).
    destruct (octet_parts b Hb) as (_ & _ & _ & Hb4 & _).
    destruct (sextet_1 a b Ha Hb) as (Hs1 & Hs1h & Hs1l).
    destruct (sextet_2 b 0 Hb eq_refl) as (Hs2 & Hs2h & _).
    change (N.shiftr 0 6) with 0 in Hs2, Hs2h. rewrite N.lor_0_r in Hs2, Hs2h.
    destruct (b64_index_char _ Ha0) as [I0 _].
    destruct (b64_index_char _ Hs1) as [I1 _].
    destruct (b64_index_char _ Hs2) as [I2 P2].
    cbn [b64encode b64decode]. rewrite I0, I1, I2, P2, N.eqb_refl.
    cbn [andb]. rewrite Hs1h, Hs1l, Hs2h, Ha2, Hb4. reflexivity.
  - inversion_clear Hbs as [|? ? Ha Hbs']. inversion_clear Hbs' as [|? ? Hb Hbs].
    inversion_clear Hbs as [|? ? Hc Hl].
    destruct (octet_parts a Ha) as (Ha0 & _ & Ha2 & _).
    destruct (octet_parts b Hb) as (_ & _ & _ & Hb4 & _).
    destruct (octet_parts c Hc) as (_ & Hc3 & _ & _ & Hc6).
    destruct (sextet_1 a b Ha Hb) as (Hs1 & Hs1h & Hs1l).
    destruct (sextet_2 b c Hb Hc) as (Hs2 & Hs2h & Hs2l).
    destruct (b64_index_char _ Ha0) as [I0 _].
    destruct (b64_index_char _ Hs1) as [I1 _].
    destruct (b64_index_char _ Hs2) as [I2 P2].
    destruct (b64_index_char _ Hc3) as [I3 P3].
    cbn [b64encode].
    rewrite (b64decode_group _ _ _ _ _ _ _ _ _ I0 I1 I2 I3 P2 P3).
    rewrite (IH Hl), Hs1h, Hs1l, Hs2h, Hs2l, Ha2, Hb4, Hc6. reflexivity.
Qed.

Lemma lor_octet (a b : N) : a < 256 -> b < 256 -> N.lor a b < 256.
Proof.
  intros Ha Hb.
  destruct (N.eq_dec (N.lor a b) 0) as [->|Hnz]; [reflexivity|].
  change 256 with (2 ^ 8). apply N.log2_lt_pow2; [lia|].
  rewrite N.log2_lor.
  assert (Hlog : forall x, x < 256 -> N.log2 x < 8).
  { intros x Hx. destruct (N.eq_dec x 0) as [->|Hx0]; [reflexivity|].
    apply N.log2_lt_pow2; [lia | exact Hx]. }
  apply N.max_lub_lt; now apply Hlog.
Qed.

Lemma land_63_octet (x : N) : N.land x 0x3F < 256.
Proof.
  change 0x3F with (N.ones 6). rewrite N.land_ones.
  pose proof (N.mod_lt x (2 ^ 6)) as H. change (2 ^ 6) with 64 in *. lia.
Qed.

Lemma shiftr_octet (c k : N) : c < 2 ^ k * 256 -> N.shiftr c k < 256.
Proof.
  intros H. rewrite N.shiftr_div_pow2.
  apply N.Div0.div_lt_upper_bound. exact H.
Qed.

Lemma Some_inj {A} (x y : A) : Some x = Some y -> x = y.
Proof. congruence. Qed.

Lemma utf8_encode_char_octets (c : N) (b : bytes) :
  utf8_encode_char c = Some b -> Forall (fun x => x < 256) b.
Proof.
  unfold utf8_encode_char.
  assert (Hcont : forall x, N.lor 0x80 (N.land x 0x3F) < 256).
  { intros x. apply lor_octet; [reflexivity | apply land_63_octet]. }
  destruct (c <? 0x80) eqn:H1.
  { intros H. apply Some_inj in H. subst b. apply N.ltb_lt in H1.
    apply Forall_cons; [lia | apply Forall_nil]. }
  destruct (c <? 0x800) eqn:H2.
  { intros H. apply Some_inj in H. subst b. apply N.ltb_lt in H2.
    apply Forall_cons; [|apply Forall_cons; [apply Hcont | apply Forall_nil]].
    apply lor_octet; [reflexivity|]. apply shiftr_octet.
    change (2 ^ 6 * 256) with 16384. lia. }
  destruct (c <? 0x10000) eqn:H3.
  { destruct (is_surrogate c); [discriminate|].
    intros H. apply Some_inj in H. subst b. apply N.ltb_lt in H3.
    apply Forall_cons;
      [|repeat (apply Forall_cons; [apply Hcont|]); apply Forall_nil].
    apply lor_octet; [reflexivity|]. apply shiftr_octet.
    change (2 ^ 12 * 256) with 1048576. lia. }
  destruct (c <? 0x110000) eqn:H4; [|discriminate].
  intros H. apply Some_inj in H. subst b. apply N.ltb_lt in H4.
  apply Forall_cons;
    [|repeat (apply Forall_cons; [apply Hcont|]); apply Forall_nil].
  apply lor_octet; [reflexivity|]. apply shiftr_octet.
  change (2 ^ 18 * 256) with 67108864. lia.
Qed.

Lemma utf8_encode_octets (s : str) (raw : bytes) :
  utf8_encode s = Some raw -> Forall (fun x => x < 256) raw.
Proof.
  revert raw. induction s as [|c s IH]; simpl; intros raw H.
  - injection H as <-. constructor.
  - destruct (utf8_encode_char c) as [b|] eqn:Hc; [|discriminate].
    destruct (utf8_encode s) as [bs|]; [|discriminate].
    injection H as <-. apply Forall_app. split.
    + now apply utf8_encode_char_octets with c.
    + now apply IH.
Qed.

(** ** Construction of a [ZoomOAuth] *)

(** [__init__] succeeds exactly when the credentials can be encoded, and
    the attribute it sets is the base64 text of their UTF-8 octets: decoding
    base64 output never fails and changes nothing. *)
Lemma init_returned (settings : Settings) (oauth : ZoomOAuth.t) :
  ZoomOAuth.__init__ settings = Returned oauth <->
  exists raw,
    utf8_encode (ClientID settings ++ lit ":" ++ ClientSecret settings)
    = Some raw
    /\ ZoomOAuth.id_secret_encrypted oauth = b64encode raw.
Proof.
  unfold ZoomOAuth.__init__, ZoomOAuth.__client_id, ZoomOAuth.__client_secret.
  destruct (utf8_encode _) as [raw|].
  - rewrite (utf8_decode_ascii _ (b64encode_ascii raw)). split.
    + intros H. injection H as <-. now exists raw.
    + intros (raw' & Hraw & Hid). injection Hraw as <-.
      destruct oauth as [s]. simpl in Hid. now subst.
  - split; [discriminate|]. intros (raw & H & _). discriminate.
Qed.

Lemma init_never_decode_error (settings : Settings) :
  ZoomOAuth.__init__ settings <> Raised UnicodeDecodeError.
Proof.
  unfold ZoomOAuth.__init__.
  destruct (utf8_encode _) as [raw|]; [|discriminate].
  now rewrite (utf8_decode_ascii _ (b64encode_ascii raw)).
Qed.

Lemma init_scalar (settings : Settings) :
  forallb is_scalar (ClientID settings) = true ->
  forallb is_scalar (ClientSecret settings) = true ->
  exists oauth, ZoomOAuth.__init__ settings = Returned oauth.
Proof.
  intros Hi Hs.
  destruct (utf8_encode_total
              (ClientID settings ++ lit ":" ++ ClientSecret settings))
    as [raw Hraw].
  { rewrite !forallb_app, Hi, Hs. reflexivity. }
  exists (ZoomOAuth.mk (b64encode raw)). apply init_returned. now exists raw.
Qed.

(** The attribute decodes back to the octets of [client_id:client_secret]. *)
Lemma init_decodes (settings : Settings) (oauth : ZoomOAuth.t) :
  ZoomOAuth.__init__ settings = Returned oauth ->
  b64decode (ZoomOAuth.id_secret_encrypted oauth)
  = utf8_encode (ClientID settings ++ lit ":" ++ ClientSecret settings).
Proof.
  intros H. apply init_returned in H as (raw & Hraw & ->).
  rewrite Hraw. apply b64decode_b64encode.
  now apply utf8_encode_octets with (ClientID settings ++ lit ":"
                                       ++ ClientSecret settings).
Qed.

Example init_sample : ZoomOAuth.__init__ sample_settings = Returned sample_oauth.
Proof. reflexivity. Qed.

Example init_surrogate :
  ZoomOAuth.__init__ (mkSettings [0x61; 0xDC00] (lit "s3cr3t") [])
  = Raised UnicodeEncodeError.
Proof. reflexivity. Qed.

(** ** Running programs *)

Lemma run_bind {A B} (p : Prog A) (f : A -> Prog B) (net : Network)
    (hist : list Exchange) :
  run (bind p f) net hist =
  match run p net hist with
  | (h, Returned a) => run (f a) net h
  | (h, Raised e) => (h, Raised e)
  end.
Proof.
  revert hist. induction p as [a | e | rq k IH]; intros hist; simpl;
    try reflexivity.
  destruct (net hist rq) as [r|]; [apply IH | reflexivity].
Qed.

Lemma run_lift {A} (r : result A) (net : Network) (hist : list Exchange) :
  run (lift r) net hist = (hist, r).
Proof. destruct r; reflexivity. Qed.

(** The history only grows. *)
Lemma run_extends {A} (p : Prog A) (net : Network) (hist : list Exchange) :
  exists more, fst (run p net hist) = hist ++ more.
Proof.
  revert hist. induction p as [a | e | rq k IH]; intros hist; simpl.
  - exists []. now rewrite app_nil_r.
  - exists []. now rewrite app_nil_r.
  - destruct (net hist rq) as [r|].
    + destruct (IH r (hist ++ [(rq, Answer r)])) as [more ->].
      exists ((rq, Answer r) :: more). now rewrite <- app_assoc.
    + now exists [(rq, NoAnswer)].
Qed.

(** [get_access_token] is one exchange with the token endpoint. *)
Lemma get_access_token_request (oauth : ZoomOAuth.t) (refresh_token : str) :
  ZoomOAuth.get_access_token oauth refresh_token
  = Send (refresh_request oauth refresh_token) (fun r => Ret r).
Proof. reflexivity. Qed.

(** The header expression: one refresh exchange, then the token or the
    exception. *)
Lemma run_bearer (settings : Settings) (oauth : ZoomOAuth.t)
    (refresh_token : str) (net : Network) (hist : list Exchange) :
  ZoomOAuth.__init__ settings = Returned oauth ->
  let rq := refresh_request oauth refresh_token in
  let rp := net hist rq in
  run (ZoomAPI.bearer settings refresh_token) net hist =
  (hist ++ [(rq, rp)],
   match granted_token rp with
   | Some tok => Returned (lit "Bearer " ++ tok)
   | None => Raised (refresh_failure rp)
   end).
Proof.
  intros Hinit rq rp. unfold ZoomAPI.bearer. rewrite Hinit.
  cbn [lift bind]. rewrite get_access_token_request. cbn [bind run].
  fold rq. fold rp. destruct rp as [r|]; [|reflexivity].
  unfold json, granted_token, refresh_failure.
  destruct (resp_json r) as [v|]; [|reflexivity].
  destruct v as [| b | z | s | l | d]; try reflexivity.
  cbn [lift bind subscript].
  destruct (dict_get (lit "access_token") d) as [t|]; [|reflexivity].
  destruct t; reflexivity.
Qed.

Lemma run_bearer_init_fails (settings : Settings) (e : exn)
    (refresh_token : str) (net : Network) (hist : list Exchange) :
  ZoomOAuth.__init__ settings = Raised e ->
  run (ZoomAPI.bearer settings refresh_token) net hist = (hist, Raised e).
Proof. intros H. unfold ZoomAPI.bearer. rewrite H. reflexivity. Qed.

(** ** Every operation of ZoomAPI, run against any network *)

(** The whole behaviour of a call: the refresh exchange comes first; without
    a granted token the call stops there with an exception; with one, and a
    string for the path, the resource request of the table follows and its
    answer is the result. *)
Lemma run_call (settings : Settings) (oauth : ZoomOAuth.t)
    (refresh_token : str) (op : Op) (net : Network) :
  ZoomOAuth.__init__ settings = Returned oauth ->
  let rq := refresh_request oauth refresh_token in
  let rp := net [] rq in
  run (call settings refresh_token op) net [] =
  match granted_token rp with
  | None => ([(rq, rp)], Raised (refresh_failure rp))
  | Some tok =>
      if well_typed op then
        let rs := resource_request op tok in
        let rp' := net [(rq, rp)] rs in
        ([(rq, rp); (rs, rp')],
         match rp' with
         | Answer r => Returned r
         | NoAnswer => Raised RequestException
         end)
      else ([(rq, rp)], Raised TypeError)
  end.
Proof.
  intros Hinit rq rp.
  destruct op as [ | n s d z a g t | | i | i | i n s d z a r g t | i st
                  | | i | e ];
    unfold call, ZoomAPI.get_user_zak, ZoomAPI.create_meeting,
      ZoomAPI.get_meetings, ZoomAPI.get_meeting_details,
      ZoomAPI.delete_meeting, ZoomAPI.update_meeting,
      ZoomAPI.update_meeting_status, ZoomAPI.list_users,
      ZoomAPI.get_user_details, ZoomAPI.check_user_email;
    rewrite run_bind, (run_bearer settings oauth refresh_token net [] Hinit);
    fold rq; fold rp; clearbody rp; clearbody rq; cbn [app];
    destruct (granted_token rp) as [tok|]; try reflexivity;
    try (destruct i; try reflexivity);
    cbn; destruct (net _ _); reflexivity.
Qed.

(** A program that is one call into [requests] issues that request and
    nothing else, answered or not; its answer is its result. *)
Lemma requests_single (rq : Request) (net : Network) :
  requests (Send rq (fun r => Ret r)) net = [rq].
Proof. unfold requests, exchanges. simpl. destruct (net [] rq); reflexivity. Qed.

Lemma outcome_single (rq : Request) (net : Network) :
  outcome (Send rq (fun r => Ret r)) net =
  match net [] rq with
  | Answer r => Returned r
  | NoAnswer => Raised RequestException
  end.
Proof. unfold outcome. simpl. destruct (net [] rq); reflexivity. Qed.

Lemma responses_single (rq : Request) (net : Network) :
  responses (Send rq (fun r => Ret r)) net =
  match net [] rq with
  | Answer r => [r]
  | NoAnswer => []
  end.
Proof.
  unfold responses, exchanges. simpl. destruct (net [] rq); reflexivity.
Qed.

(** ** ZoomOAuth *)

Lemma authorization_url_shape (settings : Settings) (self : ZoomOAuth.t) :
  ZoomOAuth.request_authorization_code settings self =
  lit "https://zoom.us/oauth/authorize?client_id=" ++ ClientID settings
  ++ lit "&response_type=code&redirect_uri=" ++ Zoom_Redirect_URI settings.
Proof. reflexivity. Qed.

(** C10. [request_authorization_code] concatenates the [key=value] pairs
    with [&] and applies no percent-encoding: whatever characters the
    configured client id and redirect URI hold, the URL is the fixed text
    with the two values spliced in verbatim, so it is exactly as long as the
    fixed text and the two values together, and each value occurs in it
    unchanged. *)
Theorem authorization_url_verbatim (settings : Settings)
    (self : ZoomOAuth.t) :
  let url := ZoomOAuth.request_authorization_code settings self in
  url = lit "https://zoom.us/oauth/authorize?"
        ++ str_join (lit "&")
             [lit "client_id=" ++ ClientID settings;
              lit "response_type=code";
              lit "redirect_uri=" ++ Zoom_Redirect_URI settings]
  /\ List.length url
     = (75 + List.length (ClientID settings)
        + List.length (Zoom_Redirect_URI settings))%nat
  /\ Substring (ClientID settings) url
  /\ Substring (Zoom_Redirect_URI settings) url.
Proof.
  intros url. subst url. rewrite authorization_url_shape. repeat split.
  - rewrite !length_app. simpl. lia.
  - exists (lit "https://zoom.us/oauth/authorize?client_id="),
      (lit "&response_type=code&redirect_uri=" ++ Zoom_Redirect_URI settings).
    reflexivity.
  - exists (lit "https://zoom.us/oauth/authorize?client_id="
            ++ ClientID settings ++ lit "&response_type=code&redirect_uri="),
      [].
    now rewrite app_nil_r, <- !app_assoc.
Qed.

(** Reserved characters in the settings reach the URL as they are. *)
Example authorization_url_reserved :
  ZoomOAuth.request_authorization_code reserved_settings sample_oauth
  = lit "https://zoom.us/oauth/authorize?client_id=a&b=c&response_type=code&redirect_uri=https://example.com/cb?next=/home&x=1".
Proof. reflexivity. Qed.

(** C3, as stated, fails: a secret that is a word of the URL occurs in it. *)
Lemma authorization_url_may_contain_secret :
  ~ authorization_url_as_specified unlucky_settings
      (ZoomOAuth.request_authorization_code unlucky_settings sample_oauth).
Proof.
  intros (_ & _ & _ & H). apply H. apply substringb_spec. reflexivity.
Qed.

(** C3, amended.  The authorization URL contains [client_id=] followed by
    the client id, [response_type=code], and [redirect_uri=] followed by the
    configured redirect URI.  The client secret is no input of it: settings
    that agree on client id and redirect URI give the same URL whatever
    their secrets, and a secret with a character that occurs neither in the
    fixed text of the URL nor in the client id nor in the redirect URI is
    not a substring of it. *)
Theorem authorization_url_contents (settings : Settings)
    (self : ZoomOAuth.t) :
  let url := ZoomOAuth.request_authorization_code settings self in
  Substring (lit "client_id=" ++ ClientID settings) url
  /\ Substring (lit "response_type=code") url
  /\ Substring (lit "redirect_uri=" ++ Zoom_Redirect_URI settings) url
  /\ (forall settings' self',
         ClientID settings' = ClientID settings ->
         Zoom_Redirect_URI settings' = Zoom_Redirect_URI settings ->
         ZoomOAuth.request_authorization_code settings' self' = url)
  /\ (forall c,
         In c (ClientSecret settings) ->
         ~ In c authorization_url_fixed_text ->
         ~ In c (ClientID settings) ->
         ~ In c (Zoom_Redirect_URI settings) ->
         ~ Substring (ClientSecret settings) url).
Proof.
  intros url. subst url. rewrite authorization_url_shape.
  split; [|split; [|split; [|split]]].
  - exists (lit "https://zoom.us/oauth/authorize?"),
      (lit "&response_type=code&redirect_uri=" ++ Zoom_Redirect_URI settings).
    now rewrite <- !app_assoc.
  - exists (lit "https://zoom.us/oauth/authorize?client_id="
            ++ ClientID settings ++ lit "&"),
      (lit "&redirect_uri=" ++ Zoom_Redirect_URI settings).
    now rewrite <- !app_assoc.
  - exists (lit "https://zoom.us/oauth/authorize?client_id="
            ++ ClientID settings ++ lit "&response_type=code&"), [].
    now rewrite app_nil_r, <- !app_assoc.
  - intros settings' self' Hid Huri.
    now rewrite authorization_url_shape, Hid, Huri.
  - intros c Hc Hfixed Hid Huri Hsub.
    pose proof (Substring_In _ _ c Hsub Hc) as H.
    apply in_app_or in H as [H|H].
    { apply Hfixed.
      change authorization_url_fixed_text
        with (lit "https://zoom.us/oauth/authorize?client_id="
              ++ lit "&response_type=code&redirect_uri=").
      apply in_or_app. now left. }
    apply in_app_or in H as [H|H]; [now apply Hid|].
    apply in_app_or in H as [H|H]; [|now apply Huri].
    apply Hfixed.
    change authorization_url_fixed_text
      with (lit "https://zoom.us/oauth/authorize?client_id="
            ++ lit "&response_type=code&redirect_uri=").
    apply in_or_app. now right.
Qed.

Lemma authorization_url_contents_witness :
  ~ Substring (ClientSecret sample_settings)
      (ZoomOAuth.request_authorization_code sample_settings sample_oauth).
Proof.
  apply (authorization_url_contents sample_settings sample_oauth)
    with (c := 33); try (apply not_In_existsb; reflexivity).
  simpl. tauto.
Defined.

(** C2. Whatever the credentials of a [ZoomOAuth] instance, the request
    that [get_first_token] issues and the one that [get_access_token]
    issues carry the headers [Content-Type] and [Authorization] and no
    other, the [Authorization] value is [Basic ] followed by the base64 text
    of the UTF-8 octets of [client_id + ':' + client_secret], octet for
    octet once the header is itself encoded, and no header value starts
    with [Bearer ]. *)
Theorem basic_authorization_header (settings : Settings)
    (oauth : ZoomOAuth.t) (code refresh_token : str) (net : Network) :
  ZoomOAuth.__init__ settings = Returned oauth ->
  exists raw,
    utf8_encode (ClientID settings ++ lit ":" ++ ClientSecret settings)
    = Some raw
    /\ let authorization := lit "Basic " ++ b64encode raw in
       let headers :=
         [(lit "Content-Type", lit "application/x-www-form-urlencoded");
          (lit "Authorization", authorization)] in
       map req_headers
         (requests (ZoomOAuth.get_first_token settings oauth code) net)
       = [headers]
       /\ map req_headers
            (requests (ZoomOAuth.get_access_token oauth refresh_token) net)
          = [headers]
       /\ utf8_encode authorization = Some authorization
       /\ forallb (fun kv => negb (startswith (lit "Bearer ") (snd kv)))
            headers = true.
Proof.
  intros Hinit. apply init_returned in Hinit as (raw & Hraw & Hid).
  exists raw. split; [exact Hraw|]. cbv zeta.
  split; [|split; [|split]].
  - unfold ZoomOAuth.get_first_token. cbn [bind requests_post].
    rewrite requests_single, Hid. reflexivity.
  - rewrite get_access_token_request, requests_single.
    unfold refresh_request. cbn [map req_headers]. rewrite Hid. reflexivity.
  - apply utf8_encode_ascii. apply Forall_app. split.
    + repeat constructor.
    + apply b64encode_ascii.
  - reflexivity.
Qed.

Lemma basic_authorization_header_witness :
  exists raw,
    utf8_encode (lit "abc123:s3cr3t!") = Some raw
    /\ map req_headers
         (requests
            (ZoomOAuth.get_first_token sample_settings sample_oauth
               (lit "obBEe8ewaL_KdyNjniT4KPd8ffDWt9fGB"))
            rejecting_network)
       = [[(lit "Content-Type", lit "application/x-www-form-urlencoded");
           (lit "Authorization", lit "Basic " ++ b64encode raw)]].
Proof.
  destruct (basic_authorization_header sample_settings sample_oauth
              (lit "obBEe8ewaL_KdyNjniT4KPd8ffDWt9fGB") (lit "RT1")
              rejecting_network eq_refl)
    as (raw & Hraw & Hfirst & _).
  exists raw. split; [exact Hraw | exact Hfirst].
Defined.

Example basic_authorization_sample :
  map req_headers
    (requests (ZoomOAuth.get_access_token sample_oauth (lit "RT1"))
       granting_network)
  = [[(lit "Content-Type", lit "application/x-www-form-urlencoded");
      (lit "Authorization", lit "Basic YWJjMTIzOnMzY3IzdCE=")]].
Proof. reflexivity. Qed.

Lemma get_first_token_request (settings : Settings) (oauth : ZoomOAuth.t)
    (code : str) :
  ZoomOAuth.get_first_token settings oauth code
  = Send
      (mkRequest POST (lit "https://zoom.us/oauth/token")
         [(lit "Content-Type", lit "application/x-www-form-urlencoded");
          (lit "Authorization",
           lit "Basic " ++ ZoomOAuth.id_secret_encrypted oauth)]
         (Some [(lit "code", code);
                (lit "grant_type", lit "authorization_code");
                (lit "redirect_uri", Zoom_Redirect_URI settings)])
         None)
      (fun r => Ret r).
Proof. reflexivity. Qed.

(** C7, as stated, fails: the provider's 400 to a bad code comes back as the
    result of [get_first_token]; nothing is raised. *)
Lemma get_first_token_4xx_not_raised :
  ~ fails_on_4xx sample_settings sample_oauth
      (lit "obBEe8ewaL_KdyNjniT4KPd8ffDWt9fGB") rejecting_network.
Proof.
  unfold fails_on_4xx. intros H.
  assert (Hr : exists r,
             In r (responses
                     (ZoomOAuth.get_first_token sample_settings sample_oauth
                        (lit "obBEe8ewaL_KdyNjniT4KPd8ffDWt9fGB"))
                     rejecting_network)
             /\ is_4xx r).
  { exists invalid_grant_response. split.
    - left. reflexivity.
    - unfold is_4xx. simpl. lia. }
  specialize (H Hr). discriminate H.
Qed.

(** C7, amended.  For every code argument, [get_first_token] issues one
    POST to the token endpoint and, when the provider answers, returns that
    very response object, whatever its status: a 4xx response is returned
    with its status and raw body untouched, and no error is raised for it.
    The method raises only when no response arrives. *)
Theorem get_first_token_returns_response (settings : Settings)
    (oauth : ZoomOAuth.t) (code : str) (net : Network) :
  let p := ZoomOAuth.get_first_token settings oauth code in
  (exists rq, requests p net = [rq] /\ req_method rq = POST
              /\ req_url rq = lit "https://zoom.us/oauth/token")
  /\ (forall r, In r (responses p net) ->
        outcome p net = Returned r)
  /\ (forall e, outcome p net = Raised e ->
        e = RequestException /\ responses p net = []).
Proof.
  intros p. subst p. rewrite get_first_token_request.
  rewrite requests_single, responses_single, outcome_single.
  split; [|split].
  - eexists. repeat split.
  - destruct (net [] _) as [r'|]; intros r Hr; simpl in Hr.
    + destruct Hr as [<- | []]. reflexivity.
    + destruct Hr.
  - destruct (net [] _) as [r'|]; intros e He.
    + discriminate He.
    + injection He as <-. split; reflexivity.
Qed.

Lemma get_first_token_returns_response_witness :
  outcome
    (ZoomOAuth.get_first_token sample_settings sample_oauth
       (lit "obBEe8ewaL_KdyNjniT4KPd8ffDWt9fGB"))
    rejecting_network
  = Returned invalid_grant_response
  /\ status_code invalid_grant_response = 400%Z.
Proof.
  split; [|reflexivity].
  apply (get_first_token_returns_response sample_settings sample_oauth
           (lit "obBEe8ewaL_KdyNjniT4KPd8ffDWt9fGB") rejecting_network).
  left. reflexivity.
Defined.

(** ** ZoomAPI *)

Lemma requests_call (settings : Settings) (oauth : ZoomOAuth.t)
    (refresh_token : str) (op : Op) (net : Network) :
  ZoomOAuth.__init__ settings = Returned oauth ->
  let rq := refresh_request oauth refresh_token in
  requests (call settings refresh_token op) net =
  match granted_token (net [] rq) with
  | Some tok =>
      if well_typed op then [rq; resource_request op tok] else [rq]
  | None => [rq]
  end.
Proof.
  intros Hinit rq. unfold requests, exchanges.
  rewrite (run_call settings oauth refresh_token op net Hinit). fold rq.
  destruct (granted_token (net [] rq)); [|reflexivity].
  destruct (well_typed op); reflexivity.
Qed.

Lemma responses_call (settings : Settings) (oauth : ZoomOAuth.t)
    (refresh_token : str) (op : Op) (net : Network) :
  ZoomOAuth.__init__ settings = Returned oauth ->
  let rq := refresh_request oauth refresh_token in
  let rp := net [] rq in
  let answered rp := match rp with Answer r => [r] | NoAnswer => [] end in
  responses (call settings refresh_token op) net =
  match granted_token rp with
  | Some tok =>
      if well_typed op
      then answered rp
           ++ answered (net [(rq, rp)] (resource_request op tok))
      else answered rp
  | None => answered rp
  end.
Proof.
  intros Hinit rq rp answered. unfold responses, exchanges.
  rewrite (run_call settings oauth refresh_token op net Hinit).
  fold rq. fold rp.
  destruct (granted_token rp); [|simpl; now rewrite app_nil_r].
  destruct (well_typed op); simpl; now rewrite app_nil_r.
Qed.

Lemma outcome_call (settings : Settings) (oauth : ZoomOAuth.t)
    (refresh_token : str) (op : Op) (net : Network) :
  ZoomOAuth.__init__ settings = Returned oauth ->
  let rq := refresh_request oauth refresh_token in
  let rp := net [] rq in
  outcome (call settings refresh_token op) net =
  match granted_token rp with
  | Some tok =>
      if well_typed op then
        match net [(rq, rp)] (resource_request op tok) with
        | Answer r => Returned r
        | NoAnswer => Raised RequestException
        end
      else Raised TypeError
  | None => Raised (refresh_failure rp)
  end.
Proof.
  intros Hinit rq rp. unfold outcome.
  rewrite (run_call settings oauth refresh_token op net Hinit).
  fold rq. fold rp.
  destruct (granted_token rp); [|reflexivity].
  destruct (well_typed op); reflexivity.
Qed.

(** Without an instance there is no request at all. *)
Lemma call_without_instance (settings : Settings) (e : exn)
    (refresh_token : str) (op : Op) (net : Network) :
  ZoomOAuth.__init__ settings = Raised e ->
  run (call settings refresh_token op) net [] = ([], Raised e).
Proof.
  intros Hinit.
  destruct op; unfold call, ZoomAPI.get_user_zak, ZoomAPI.create_meeting,
      ZoomAPI.get_meetings, ZoomAPI.get_meeting_details,
      ZoomAPI.delete_meeting, ZoomAPI.update_meeting,
      ZoomAPI.update_meeting_status, ZoomAPI.list_users,
      ZoomAPI.get_user_details, ZoomAPI.check_user_email;
    rewrite run_bind, (run_bearer_init_fails settings e _ net [] Hinit);
    reflexivity.
Qed.

(** A reply hands over a token exactly when it is an answer whose JSON body
    is an object with a string under [access_token]. *)
Lemma granted_token_spec (rp : reply) (tok : str) :
  granted_token rp = Some tok <->
  exists r d, rp = Answer r /\ resp_json r = Some (PyDict d)
              /\ dict_get (lit "access_token") d = Some (PyStr tok).
Proof.
  split.
  - destruct rp as [r|]; [|discriminate]. unfold granted_token.
    destruct (resp_json r) as [[| | | | | d]|] eqn:Hj; try discriminate.
    destruct (dict_get _ d) as [[| | | s | |]|] eqn:Hd; try discriminate.
    intros H. injection H as ->. now exists r, d.
  - intros (r & d & -> & Hj & Hd). unfold granted_token. now rewrite Hj, Hd.
Qed.

(** C1, as stated, fails: with a refresh token the provider rejects, the
    refresh POST is the only request of [get_user_zak]. *)
Lemma rejected_refresh_stops_the_call :
  ~ one_refresh_then_one_resource sample_settings (lit "RT0") GetUserZak
      rejecting_network.
Proof.
  intros (rq1 & rq2 & H & _). vm_compute in H. discriminate H.
Qed.

(** C1, amended.  For every operation of ZoomAPI called on an instance
    whose credentials encode, with a string for the identifier in the path:
    the first request is one POST to the OAuth token endpoint, carrying the
    refresh token.  When its answer is a JSON object with a string
    [access_token], exactly one request to the operation's resource
    endpoint follows, with the method and path of the table and that token
    as bearer, and there is no other request.  When the answer holds no such
    token, or no answer arrives, the refresh POST is the only request and
    the operation raises. *)
Theorem refresh_then_resource (settings : Settings) (oauth : ZoomOAuth.t)
    (refresh_token : str) (op : Op) (net : Network) :
  ZoomOAuth.__init__ settings = Returned oauth ->
  well_typed op = true ->
  let p := call settings refresh_token op in
  let rq := refresh_request oauth refresh_token in
  req_method rq = POST
  /\ req_url rq = lit "https://zoom.us/oauth/token"
  /\ (forall tok, granted_token (net [] rq) = Some tok ->
        requests p net = [rq; resource_request op tok]
        /\ one_refresh_then_one_resource settings refresh_token op net)
  /\ (granted_token (net [] rq) = None ->
        requests p net = [rq] /\ is_raised (outcome p net) = true).
Proof.
  intros Hinit Hty p rq.
  pose proof (requests_call settings oauth refresh_token op net Hinit) as Hrq.
  pose proof (outcome_call settings oauth refresh_token op net Hinit) as Hout.
  cbv zeta in Hrq, Hout. fold rq in Hrq, Hout. fold p in Hrq, Hout.
  rewrite Hty in Hrq, Hout.
  split; [reflexivity|]. split; [reflexivity|]. split.
  - intros tok Htok. rewrite Htok in Hrq. split; [exact Hrq|].
    exists rq, (resource_request op tok). fold p. rewrite Hrq.
    repeat split.
  - intros Hnone. rewrite Hnone in Hrq, Hout. split; [exact Hrq|].
    rewrite Hout. reflexivity.
Qed.

Lemma refresh_then_resource_witness :
  requests (call sample_settings (lit "RT1")
              (GetMeetingDetails (PyStr (lit "85746065"))))
    granting_network
  = [refresh_request sample_oauth (lit "RT1");
     mkRequest GET (lit "https://api.zoom.us/v2/meetings/85746065")
       [(lit "Authorization", lit "Bearer AT1")] None None].
Proof.
  apply (refresh_then_resource sample_settings sample_oauth (lit "RT1")
           (GetMeetingDetails (PyStr (lit "85746065"))) granting_network
           eq_refl eq_refl).
  reflexivity.
Defined.

(** An identifier that is not a string stops the call after the refresh. *)
Lemma call_ill_typed (settings : Settings) (oauth : ZoomOAuth.t)
    (refresh_token : str) (op : Op) (net : Network) (tok : str) :
  ZoomOAuth.__init__ settings = Returned oauth ->
  well_typed op = false ->
  granted_token (net [] (refresh_request oauth refresh_token)) = Some tok ->
  run (call settings refresh_token op) net []
  = ([(refresh_request oauth refresh_token,
       net [] (refresh_request oauth refresh_token))],
     Raised TypeError).
Proof.
  intros Hinit Hty Htok.
  rewrite (run_call settings oauth refresh_token op net Hinit).
  cbv zeta. now rewrite Htok, Hty.
Qed.

(** C6, as stated, fails: the provider's 400 to the refresh call makes
    [get_user_zak] raise [KeyError]. *)
Lemma refresh_error_status_raises :
  ~ returns_on_error_status sample_settings (lit "RT0") GetUserZak
      rejecting_network.
Proof.
  unfold returns_on_error_status. intros H.
  destruct H as [r Hr].
  - exists invalid_grant_response. split.
    + left. reflexivity.
    + right. simpl. lia.
  - vm_compute in Hr. discriminate Hr.
Qed.

Example refresh_error_status_key_error :
  outcome (call sample_settings (lit "RT0") GetUserZak) rejecting_network
  = Raised KeyError.
Proof. reflexivity. Qed.

(** C6, amended.  For every operation of ZoomAPI (instance constructed,
    path identifier a string): the status of a response is never looked at.
    A response to the resource call is returned to the caller as it is,
    non-2xx included, and nothing is raised for it.  A response to the
    token-refresh call is not returned: when its JSON body is an object with
    a string [access_token] the operation goes on to the resource call,
    whatever the status; when it is not, as in the provider's 4xx error
    bodies, the operation raises [JSONDecodeError], [KeyError] or
    [TypeError]. *)
Theorem error_status_not_special_cased (settings : Settings)
    (oauth : ZoomOAuth.t) (refresh_token : str) (op : Op) (net : Network) :
  ZoomOAuth.__init__ settings = Returned oauth ->
  well_typed op = true ->
  let p := call settings refresh_token op in
  let rq := refresh_request oauth refresh_token in
  (forall tok r,
      granted_token (net [] rq) = Some tok ->
      net [(rq, net [] rq)] (resource_request op tok) = Answer r ->
      outcome p net = Returned r)
  /\ (forall r,
        net [] rq = Answer r ->
        granted_token (Answer r) = None ->
        outcome p net = Raised (refresh_failure (Answer r))
        /\ In (refresh_failure (Answer r))
             [JSONDecodeError; KeyError; TypeError])
  /\ (forall r r',
        outcome p net = Returned r -> net [] rq = Answer r' ->
        exists tok, granted_token (Answer r') = Some tok
                    /\ net [(rq, Answer r')] (resource_request op tok)
                       = Answer r).
Proof.
  intros Hinit Hty p rq.
  pose proof (outcome_call settings oauth refresh_token op net Hinit) as Hout.
  cbv zeta in Hout. fold rq in Hout. fold p in Hout. rewrite Hty in Hout.
  split; [|split].
  - intros tok r Htok Hans. now rewrite Hout, Htok, Hans.
  - intros r Hans Hnone. rewrite Hans in Hout. rewrite Hnone in Hout.
    split; [exact Hout|].
    unfold refresh_failure.
    destruct (resp_json r) as [[| | | | | d]|]; simpl; auto.
    destruct (dict_get (lit "access_token") d); simpl; auto.
  - intros r r' Hret Hans. rewrite Hans in Hout. rewrite Hout in Hret.
    destruct (granted_token (Answer r')) as [tok|]; [|discriminate Hret].
    exists tok. split; [reflexivity|].
    destruct (net _ _) as [r''|]; [|discriminate Hret].
    now injection Hret as ->.
Qed.

Lemma error_status_not_special_cased_witness :
  outcome (call sample_settings (lit "RT1")
             (GetMeetingDetails (PyStr (lit "85746065"))))
    granting_network
  = Returned not_found_response
  /\ status_code not_found_response = 404%Z.
Proof.
  split; [|reflexivity].
  apply (error_status_not_special_cased sample_settings sample_oauth
           (lit "RT1") (GetMeetingDetails (PyStr (lit "85746065")))
           granting_network eq_refl eq_refl)
    with (tok := lit "AT1"); reflexivity.
Defined.

(** C4. [create_meeting] with topic "Standup", start time
    "2024-01-01T09:00:00Z", duration 30, timezone "UTC", agenda "daily",
    empty settings and no [type] argument, called with refresh token [R]:
    when the refresh call made with [R] is answered by a JSON object whose
    [access_token] is the string [tok], the call issues that refresh POST
    and then one POST to [users/me/meetings] whose JSON body has
    topic = "Standup", duration = 30 and type = 2, and whose
    [Authorization] header is [Bearer ] followed by [tok]. *)
Theorem create_meeting_standup (settings : Settings) (oauth : ZoomOAuth.t)
    (R : str) (net : Network) (r : Response) (d : dict pyval) (tok : str) :
  ZoomOAuth.__init__ settings = Returned oauth ->
  net [] (refresh_request oauth R) = Answer r ->
  resp_json r = Some (PyDict d) ->
  dict_get (lit "access_token") d = Some (PyStr tok) ->
  exists refresh post params body,
    requests
      (ZoomAPI.create_meeting settings R
         (PyStr (lit "Standup")) (PyStr (lit "2024-01-01T09:00:00Z"))
         (PyInt 30) (PyStr (lit "UTC")) (PyStr (lit "daily")) (PyDict [])
         None)
      net
    = [refresh; post]
    /\ refresh = refresh_request oauth R
    /\ req_params refresh = Some params
    /\ dict_get (lit "refresh_token") params = Some R
    /\ req_method post = POST
    /\ req_url post = ZoomAPI.__api_url ++ lit "users/me/meetings"
    /\ req_json post = Some (PyDict body)
    /\ dict_get (lit "topic") body = Some (PyStr (lit "Standup"))
    /\ dict_get (lit "duration") body = Some (PyInt 30)
    /\ dict_get (lit "type") body = Some (PyInt 2)
    /\ req_headers post = [(lit "Authorization", lit "Bearer " ++ tok)].
Proof.
  intros Hinit Hans Hjson Htok.
  assert (Hg : granted_token (net [] (refresh_request oauth R)) = Some tok).
  { apply granted_token_spec. now exists r, d. }
  pose proof (requests_call settings oauth R
                (CreateMeeting (PyStr (lit "Standup"))
                   (PyStr (lit "2024-01-01T09:00:00Z")) (PyInt 30)
                   (PyStr (lit "UTC")) (PyStr (lit "daily")) (PyDict [])
                   None)
                net Hinit) as Hrq.
  cbv zeta in Hrq. rewrite Hg in Hrq.
  do 4 eexists. split; [exact Hrq|]. repeat split.
Qed.

Lemma create_meeting_standup_witness :
  exists post,
    requests
      (ZoomAPI.create_meeting sample_settings (lit "RT1")
         (PyStr (lit "Standup")) (PyStr (lit "2024-01-01T09:00:00Z"))
         (PyInt 30) (PyStr (lit "UTC")) (PyStr (lit "daily")) (PyDict [])
         None)
      granting_network
    = [refresh_request sample_oauth (lit "RT1"); post]
    /\ req_headers post = [(lit "Authorization", lit "Bearer AT1")].
Proof.
  destruct (create_meeting_standup sample_settings sample_oauth (lit "RT1")
              granting_network token_response
              [(lit "access_token", PyStr (lit "AT1"));
               (lit "token_type", PyStr (lit "bearer"));
               (lit "refresh_token", PyStr (lit "RT2"));
               (lit "expires_in", PyInt 3599)]
              (lit "AT1") eq_refl eq_refl eq_refl eq_refl)
    as (refresh & post & params & body & Hrq & -> & _ & _ & _ & _ & _ & _
        & _ & _ & Hh).
  exists post. split; [exact Hrq | exact Hh].
Defined.

(** C5, as stated, fails: with a refresh token the provider rejects,
    [update_meeting_status] issues no PUT at all. *)
Lemma rejected_refresh_no_status_put :
  ~ status_put_issued sample_settings (lit "RT0") (lit "123")
      (PyStr (lit "end")) rejecting_network.
Proof.
  intros (put & Hin & Hmethod & _).
  destruct Hin as [<- | []]. discriminate Hmethod.
Qed.

(** C5, amended.  For every string [meeting_id] and every [status],
    [update_meeting_status] issues, when the refresh POST has handed over
    a token, one PUT to [meetings/{meeting_id}] with the bearer header, no
    query parameters and the JSON body [{"status": status}], a dictionary
    of that one key; when the refresh hands over no token, it issues no
    PUT: the refresh POST is its only request. *)
Theorem update_meeting_status_request (settings : Settings)
    (oauth : ZoomOAuth.t) (R meeting_id : str) (status : pyval)
    (net : Network) :
  ZoomOAuth.__init__ settings = Returned oauth ->
  let p := ZoomAPI.update_meeting_status settings R (PyStr meeting_id)
             status in
  let rq := refresh_request oauth R in
  (forall tok, granted_token (net [] rq) = Some tok ->
     requests p net =
     [rq;
      mkRequest PUT (ZoomAPI.__api_url ++ lit "meetings/" ++ meeting_id)
        [(lit "Authorization", lit "Bearer " ++ tok)]
        None
        (Some (PyDict [(lit "status", status)]))])
  /\ (granted_token (net [] rq) = None -> requests p net = [rq]).
Proof.
  intros Hinit p rq.
  pose proof (requests_call settings oauth R
                (UpdateMeetingStatus (PyStr meeting_id) status) net Hinit)
    as Hrq.
  cbv zeta in Hrq. fold rq in Hrq.
  change (call settings R (UpdateMeetingStatus (PyStr meeting_id) status))
    with p in Hrq.
  split.
  - intros tok Htok. rewrite Htok in Hrq. exact Hrq.
  - intros Hnone. rewrite Hnone in Hrq. exact Hrq.
Qed.

(** [update_meeting_status(meeting_id="123", status="end")] *)
Lemma update_meeting_status_request_witness :
  requests
    (ZoomAPI.update_meeting_status sample_settings (lit "RT1")
       (PyStr (lit "123")) (PyStr (lit "end")))
    granting_network
  = [refresh_request sample_oauth (lit "RT1");
     mkRequest PUT (lit "https://api.zoom.us/v2/meetings/123")
       [(lit "Authorization", lit "Bearer AT1")]
       None
       (Some (PyDict [(lit "status", PyStr (lit "end"))]))].
Proof.
  apply (update_meeting_status_request sample_settings sample_oauth
           (lit "RT1") (lit "123") (PyStr (lit "end")) granting_network
           eq_refl).
  reflexivity.
Defined.

(** C8, as stated, fails: with a refresh token the provider rejects,
    [update_meeting] issues no PUT at all. *)
Lemma rejected_refresh_no_full_put :
  ~ full_put_issued sample_settings (lit "RT0") (lit "123")
      (PyStr (lit "Standup")) (PyStr (lit "2024-01-01T09:00:00Z"))
      (PyInt 30) (PyStr (lit "UTC")) (PyStr (lit "daily")) PyNone
      (PyDict []) None rejecting_network.
Proof.
  intros (put & body & Hin & Hmethod & _).
  destruct Hin as [<- | []]. discriminate Hmethod.
Qed.

(** C8, amended.  For every input with a string [meeting_id],
    [update_meeting] issues, when the refresh POST has handed over a
    token, one PUT to [meetings/{meeting_id}] whose JSON body holds all
    eight meeting fields, topic, start_time, duration, timezone, agenda,
    recurrence, settings and type, each with the value of the corresponding
    argument ([type] is 2 when left out); when the refresh hands over no
    token, it issues no PUT: the refresh POST is its only request. *)
Theorem update_meeting_request (settings : Settings) (oauth : ZoomOAuth.t)
    (R meeting_id : str)
    (meeting_name start_time duration timezone agenda recurrence
       settings' : pyval)
    (type : option pyval) (net : Network) :
  ZoomOAuth.__init__ settings = Returned oauth ->
  let p := ZoomAPI.update_meeting settings R (PyStr meeting_id)
             meeting_name start_time duration timezone agenda recurrence
             settings' type in
  let rq := refresh_request oauth R in
  (forall tok, granted_token (net [] rq) = Some tok ->
     exists put body,
       requests p net = [rq; put]
       /\ req_method put = PUT
       /\ req_url put = ZoomAPI.__api_url ++ lit "meetings/" ++ meeting_id
       /\ req_json put = Some (PyDict body)
       /\ keys body
          = map lit ["topic"; "start_time"; "duration"; "timezone";
                     "agenda"; "recurrence"; "settings"; "type"]%string
       /\ map (fun k => dict_get k body) (keys body)
          = map Some
              [meeting_name; start_time; duration; timezone; agenda;
               recurrence; settings';
               match type with Some v => v | None => PyInt 2 end])
  /\ (granted_token (net [] rq) = None -> requests p net = [rq]).
Proof.
  intros Hinit p rq.
  pose proof (requests_call settings oauth R
                (UpdateMeeting (PyStr meeting_id) meeting_name start_time
                   duration timezone agenda recurrence settings' type)
                net Hinit) as Hrq.
  cbv zeta in Hrq. fold rq in Hrq.
  change (call settings R
            (UpdateMeeting (PyStr meeting_id) meeting_name start_time
               duration timezone agenda recurrence settings' type))
    with p in Hrq.
  split.
  - intros tok Htok. rewrite Htok in Hrq.
    do 2 eexists. split; [exact Hrq|]. repeat split.
  - intros Hnone. rewrite Hnone in Hrq. exact Hrq.
Qed.

Lemma update_meeting_request_witness :
  exists put body,
    requests
      (ZoomAPI.update_meeting sample_settings (lit "RT1")
         (PyStr (lit "123")) (PyStr (lit "Standup"))
         (PyStr (lit "2024-01-01T09:00:00Z")) (PyInt 30)
         (PyStr (lit "UTC")) (PyStr (lit "daily")) PyNone (PyDict []) None)
      granting_network
    = [refresh_request sample_oauth (lit "RT1"); put]
    /\ req_json put = Some (PyDict body)
    /\ List.length body = 8%nat.
Proof.
  destruct (update_meeting_request sample_settings sample_oauth
              (lit "RT1") (lit "123") (PyStr (lit "Standup"))
              (PyStr (lit "2024-01-01T09:00:00Z")) (PyInt 30)
              (PyStr (lit "UTC")) (PyStr (lit "daily")) PyNone (PyDict [])
              None granting_network eq_refl) as [H _].
  destruct (H (lit "AT1") eq_refl)
    as (put & body & Hrq & _ & _ & Hjson & Hkeys & _).
  exists put, body. split; [exact Hrq|]. split; [exact Hjson|].
  unfold keys in Hkeys. apply (f_equal (@List.length _)) in Hkeys.
  rewrite length_map in Hkeys. exact Hkeys.
Defined.

(** C9, as stated, fails: with a refresh token the provider rejects,
    [check_user_email] issues no GET at all. *)
Lemma rejected_refresh_no_get :
  ~ one_get_issued sample_settings (lit "RT0")
      (PyStr (lit "someone@example.com")) rejecting_network.
Proof.
  intros (get & Hfilter & _). discriminate Hfilter.
Qed.

(** C9, amended.  For every refresh token and email, [check_user_email]
    issues, when the refresh POST has handed over a token, exactly one GET,
    to [users/email], whose only header is the bearer [Authorization],
    which has no query parameters, and whose JSON body is
    [{"email": email}]; when the refresh hands over no token, it issues no
    GET: the refresh POST is its only request.  It never issues more than
    one GET. *)
Theorem check_user_email_request (settings : Settings)
    (oauth : ZoomOAuth.t) (refresh_token : str) (email : pyval)
    (net : Network) :
  ZoomOAuth.__init__ settings = Returned oauth ->
  let p := ZoomAPI.check_user_email settings refresh_token email in
  let rq := refresh_request oauth refresh_token in
  (forall tok, granted_token (net [] rq) = Some tok ->
     requests p net =
     [rq;
      mkRequest GET (ZoomAPI.__api_url ++ lit "users/email")
        [(lit "Authorization", lit "Bearer " ++ tok)]
        None
        (Some (PyDict [(lit "email", email)]))])
  /\ (granted_token (net [] rq) = None -> requests p net = [rq])
  /\ (List.length
        (filter (fun x => match req_method x with GET => true | _ => false end)
           (requests p net)) <= 1)%nat.
Proof.
  intros Hinit p rq.
  pose proof (requests_call settings oauth refresh_token
                (CheckUserEmail email) net Hinit) as Hrq.
  cbv zeta in Hrq. fold rq in Hrq.
  change (call settings refresh_token (CheckUserEmail email)) with p in Hrq.
  split; [|split].
  - intros tok Htok. rewrite Htok in Hrq. exact Hrq.
  - intros Hnone. rewrite Hnone in Hrq. exact Hrq.
  - rewrite Hrq. destruct (granted_token (net [] rq)); simpl; lia.
Qed.

Lemma check_user_email_request_witness :
  requests
    (ZoomAPI.check_user_email sample_settings (lit "RT1")
       (PyStr (lit "someone@example.com")))
    granting_network
  = [refresh_request sample_oauth (lit "RT1");
     mkRequest GET (lit "https://api.zoom.us/v2/users/email")
       [(lit "Authorization", lit "Bearer AT1")]
       None
       (Some (PyDict [(lit "email", PyStr (lit "someone@example.com"))]))].
Proof.
  apply (check_user_email_request sample_settings sample_oauth (lit "RT1")
           (PyStr (lit "someone@example.com")) granting_network eq_refl).
  reflexivity.
Defined.

(** * Further properties *)

(** ** When a [ZoomOAuth] can be constructed *)

Ltac bool_to_prop :=
  repeat match goal with
    | H : (_ <? _) = true |- _ => apply N.ltb_lt in H
    | H : (_ <? _) = false |- _ => apply N.ltb_ge in H
    | H : (_ <=? _) = true |- _ => apply N.leb_le in H
    | H : (_ <=? _) = false |- _ => apply N.leb_gt in H
    end.

Lemma utf8_encode_char_none (c : N) :
  utf8_encode_char c = None <-> is_scalar c = false.
Proof.
  unfold utf8_encode_char, is_scalar, is_surrogate.
  destruct (c <? 0x80) eqn:H1; destruct (c <? 0x800) eqn:H2;
    destruct (c <? 0x10000) eqn:H3; destruct (c <? 0x110000) eqn:H4;
    destruct (0xD800 <=? c) eqn:H5; destruct (c <=? 0xDFFF) eqn:H6;
    cbn [andb negb]; split; intros H; try discriminate H; try reflexivity;
    exfalso; bool_to_prop; lia.
Qed.

Lemma utf8_encode_none (s : str) :
  utf8_encode s = None <-> forallb is_scalar s = false.
Proof.
  induction s as [|c s IH]; simpl; [split; discriminate|].
  destruct (utf8_encode_char c) as [b|] eqn:Hc.
  - assert (Hs : is_scalar c = true).
    { destruct (is_scalar c) eqn:E; [reflexivity|].
      apply utf8_encode_char_none in E. congruence. }
    rewrite Hs. cbn [andb]. rewrite <- IH.
    destruct (utf8_encode s); split; congruence.
  - apply utf8_encode_char_none in Hc. rewrite Hc. tauto.
Qed.

Lemma credentials_scalar (settings : Settings) :
  forallb is_scalar (ClientID settings ++ lit ":" ++ ClientSecret settings)
  = forallb is_scalar (ClientID settings)
    && forallb is_scalar (ClientSecret settings).
Proof. rewrite !forallb_app. reflexivity. Qed.

Lemma init_raised (settings : Settings) (e : exn) :
  ZoomOAuth.__init__ settings = Raised e <->
  e = UnicodeEncodeError
  /\ forallb is_scalar (ClientID settings)
     && forallb is_scalar (ClientSecret settings) = false.
Proof.
  rewrite <- credentials_scalar, <- utf8_encode_none.
  unfold ZoomOAuth.__init__, ZoomOAuth.__client_id, ZoomOAuth.__client_secret.
  destruct (utf8_encode _) as [raw|].
  - rewrite (utf8_decode_ascii _ (b64encode_ascii raw)).
    split; [discriminate | intros [_ H]; discriminate H].
  - split.
    + intros H. injection H as <-. now split.
    + intros [-> _]. reflexivity.
Qed.

(** X1. Constructing a [ZoomOAuth] succeeds exactly when every code point
    of the client id and of the client secret can be encoded as UTF-8 (none
    is a lone surrogate); otherwise [__init__] raises [UnicodeEncodeError],
    and it raises nothing else: decoding the base64 text cannot fail. *)
Theorem init_succeeds_iff (settings : Settings) :
  let encodable :=
    forallb is_scalar (ClientID settings)
    && forallb is_scalar (ClientSecret settings) in
  ((exists oauth, ZoomOAuth.__init__ settings = Returned oauth)
   <-> encodable = true)
  /\ (ZoomOAuth.__init__ settings = Raised UnicodeEncodeError
      <-> encodable = false)
  /\ (forall e, ZoomOAuth.__init__ settings = Raised e ->
        e = UnicodeEncodeError).
Proof.
  intros encodable. subst encodable. split; [|split].
  - split.
    + intros [oauth H].
      destruct (forallb is_scalar (ClientID settings)
                && forallb is_scalar (ClientSecret settings)) eqn:E;
        [reflexivity|].
      assert (ZoomOAuth.__init__ settings = Raised UnicodeEncodeError)
        by (apply init_raised; now split).
      congruence.
    + intros H. apply andb_true_iff in H as [Hi Hs].
      now apply init_scalar.
  - rewrite init_raised. tauto.
  - intros e H. now apply init_raised in H.
Qed.

Lemma init_succeeds_iff_witness :
  ZoomOAuth.__init__ surrogate_settings = Raised UnicodeEncodeError
  /\ exists oauth, ZoomOAuth.__init__ sample_settings = Returned oauth.
Proof.
  split.
  - apply (init_succeeds_iff surrogate_settings). reflexivity.
  - apply (init_succeeds_iff sample_settings). reflexivity.
Defined.

(** X2. The attribute that [__init__] sets is a faithful encoding of the
    credentials: decoding [id_secret_encrypted] as base64 gives back the
    UTF-8 octets of [client_id + ':' + client_secret], and the attribute is
    ASCII text whose length is a multiple of four. *)
Theorem id_secret_encrypted_decodes (settings : Settings)
    (oauth : ZoomOAuth.t) :
  ZoomOAuth.__init__ settings = Returned oauth ->
  b64decode (ZoomOAuth.id_secret_encrypted oauth)
  = utf8_encode (ClientID settings ++ lit ":" ++ ClientSecret settings)
  /\ ascii_only (ZoomOAuth.id_secret_encrypted oauth)
  /\ (List.length (ZoomOAuth.id_secret_encrypted oauth) mod 4 = 0)%nat.
Proof.
  intros H. apply init_returned in H as (raw & Hraw & ->).
  split; [|split].
  - rewrite Hraw. apply b64decode_b64encode.
    now apply utf8_encode_octets
      with (ClientID settings ++ lit ":" ++ ClientSecret settings).
  - apply b64encode_ascii.
  - rewrite b64encode_length, Nat.mul_comm. apply Nat.Div0.mod_mul.
Qed.

Lemma id_secret_encrypted_decodes_witness :
  b64decode (lit "YWJjMTIzOnMzY3IzdCE=") = Some (lit "abc123:s3cr3t!").
Proof.
  apply (id_secret_encrypted_decodes sample_settings sample_oauth eq_refl).
Defined.

(** ** Calls of ZoomAPI from any history *)

Lemma run_call_from (settings : Settings) (oauth : ZoomOAuth.t)
    (refresh_token : str) (op : Op) (net : Network) (hist : list Exchange) :
  ZoomOAuth.__init__ settings = Returned oauth ->
  let rq := refresh_request oauth refresh_token in
  let rp := net hist rq in
  run (call settings refresh_token op) net hist =
  match granted_token rp with
  | None => (hist ++ [(rq, rp)], Raised (refresh_failure rp))
  | Some tok =>
      if well_typed op then
        let rs := resource_request op tok in
        let rp' := net (hist ++ [(rq, rp)]) rs in
        ((hist ++ [(rq, rp)]) ++ [(rs, rp')],
         match rp' with
         | Answer r => Returned r
         | NoAnswer => Raised RequestException
         end)
      else (hist ++ [(rq, rp)], Raised TypeError)
  end.
Proof.
  intros Hinit rq rp.
  destruct op as [ | n s d z a g t | | i | i | i n s d z a r g t | i st
                  | | i | e ];
    unfold call, ZoomAPI.get_user_zak, ZoomAPI.create_meeting,
      ZoomAPI.get_meetings, ZoomAPI.get_meeting_details,
      ZoomAPI.delete_meeting, ZoomAPI.update_meeting,
      ZoomAPI.update_meeting_status, ZoomAPI.list_users,
      ZoomAPI.get_user_details, ZoomAPI.check_user_email;
    rewrite run_bind, (run_bearer settings oauth refresh_token net hist Hinit);
    fold rq; fold rp; clearbody rp; clearbody rq;
    destruct (granted_token rp) as [tok|]; try reflexivity;
    try (destruct i; try reflexivity);
    generalize (hist ++ [(rq, rp)]); intros h;
    cbn; destruct (net _ _); reflexivity.
Qed.

Lemma run_call_no_instance (settings : Settings) (e : exn)
    (refresh_token : str) (op : Op) (net : Network) (hist : list Exchange) :
  ZoomOAuth.__init__ settings = Raised e ->
  run (call settings refresh_token op) net hist = (hist, Raised e).
Proof.
  intros Hinit.
  destruct op; unfold call, ZoomAPI.get_user_zak, ZoomAPI.create_meeting,
      ZoomAPI.get_meetings, ZoomAPI.get_meeting_details,
      ZoomAPI.delete_meeting, ZoomAPI.update_meeting,
      ZoomAPI.update_meeting_status, ZoomAPI.list_users,
      ZoomAPI.get_user_details, ZoomAPI.check_user_email;
    rewrite run_bind, (run_bearer_init_fails settings e _ net hist Hinit);
    reflexivity.
Qed.

Lemma init_cases (settings : Settings) :
  (exists oauth, ZoomOAuth.__init__ settings = Returned oauth)
  \/ ZoomOAuth.__init__ settings = Raised UnicodeEncodeError.
Proof.
  destruct (ZoomOAuth.__init__ settings) as [oauth|e] eqn:H.
  - left. now exists oauth.
  - right. apply init_raised in H as [-> _]. reflexivity.
Qed.

(** X3. Credentials that cannot be encoded keep every method of ZoomAPI off
    the network: when the client id or the client secret holds a code point
    that UTF-8 cannot encode, each of the ten operations raises
    [UnicodeEncodeError] and issues no HTTP request at all, not even the
    token refresh. *)
Theorem unencodable_credentials_no_request (settings : Settings)
    (refresh_token : str) (op : Op) (net : Network) :
  forallb is_scalar (ClientID settings)
  && forallb is_scalar (ClientSecret settings) = false ->
  requests (call settings refresh_token op) net = []
  /\ outcome (call settings refresh_token op) net = Raised UnicodeEncodeError.
Proof.
  intros H.
  assert (Hinit : ZoomOAuth.__init__ settings = Raised UnicodeEncodeError)
    by (apply init_raised; now split).
  unfold requests, exchanges, outcome.
  rewrite (run_call_no_instance settings _ refresh_token op net [] Hinit).
  split; reflexivity.
Qed.

Lemma unencodable_credentials_no_request_witness :
  requests (call surrogate_settings (lit "RT1") ListUsers) granting_network
  = [].
Proof.
  apply (unencodable_credentials_no_request surrogate_settings (lit "RT1")
           ListUsers granting_network eq_refl).
Defined.

(** X4. Whatever the settings, the arguments and the network, an operation
    of ZoomAPI issues at most two HTTP requests; when it issues any, the
    first is the POST to the OAuth token endpoint; and it issues none only
    when no [ZoomOAuth] could be constructed. *)
Theorem at_most_two_requests (settings : Settings) (refresh_token : str)
    (op : Op) (net : Network) :
  let sent := requests (call settings refresh_token op) net in
  (List.length sent <= 2)%nat
  /\ (forall rq, hd_error sent = Some rq ->
        req_method rq = POST
        /\ req_url rq = lit "https://zoom.us/oauth/token")
  /\ (sent = [] <->
      ZoomOAuth.__init__ settings = Raised UnicodeEncodeError).
Proof.
  intros sent. subst sent.
  destruct (init_cases settings) as [[oauth Hinit] | Hinit].
  - rewrite (requests_call settings oauth refresh_token op net Hinit).
    cbv zeta.
    destruct (granted_token _) as [tok|]; [destruct (well_typed op)|];
      (split; [simpl; lia|]);
      (split; [intros rq H; injection H as <-; split; reflexivity|]);
      (split; [discriminate | rewrite Hinit; discriminate]).
  - unfold requests, exchanges.
    rewrite (run_call_no_instance settings _ refresh_token op net [] Hinit).
    simpl. split; [lia|]. split; [discriminate|]. tauto.
Qed.

Lemma ill_typed_path (op : Op) (v : pyval) :
  path_argument op = Some v -> (forall s, v <> PyStr s) ->
  well_typed op = false.
Proof.
  intros Hp Hv. unfold well_typed. rewrite Hp.
  destruct v; try reflexivity. now destruct (Hv s).
Qed.

(** X5. An identifier that is not a string ([meeting_id] or [user_id]
    passed as a number, say) is found out only after the token refresh: the
    refresh POST is issued, no resource request follows, and the operation
    raises [TypeError] when the refresh handed over a token, the exception
    of the failed refresh otherwise. *)
Theorem non_string_identifier (settings : Settings) (oauth : ZoomOAuth.t)
    (refresh_token : str) (op : Op) (v : pyval) (net : Network) :
  ZoomOAuth.__init__ settings = Returned oauth ->
  path_argument op = Some v ->
  (forall s, v <> PyStr s) ->
  let p := call settings refresh_token op in
  let rq := refresh_request oauth refresh_token in
  requests p net = [rq]
  /\ outcome p net =
     match granted_token (net [] rq) with
     | Some _ => Raised TypeError
     | None => Raised (refresh_failure (net [] rq))
     end.
Proof.
  intros Hinit Hp Hv p rq.
  pose proof (ill_typed_path op v Hp Hv) as Hty.
  pose proof (requests_call settings oauth refresh_token op net Hinit) as Hrq.
  pose proof (outcome_call settings oauth refresh_token op net Hinit) as Hout.
  cbv zeta in Hrq, Hout. fold rq in Hrq, Hout. fold p in Hrq, Hout.
  rewrite Hty in Hrq, Hout. rewrite Hrq, Hout.
  destruct (granted_token (net [] rq)); split; reflexivity.
Qed.

Lemma non_string_identifier_witness :
  requests (call sample_settings (lit "RT1")
              (GetMeetingDetails (PyInt 85746065)))
    granting_network
  = [refresh_request sample_oauth (lit "RT1")]
  /\ outcome (call sample_settings (lit "RT1")
                (GetMeetingDetails (PyInt 85746065)))
       granting_network
     = Raised TypeError.
Proof.
  apply (non_string_identifier sample_settings sample_oauth (lit "RT1")
           (GetMeetingDetails (PyInt 85746065)) (PyInt 85746065)
           granting_network eq_refl eq_refl).
  intros s H. discriminate H.
Defined.

(** X6. Two of the exceptions of an operation say what the provider sent
    back to the refresh: the operation raises [JSONDecodeError] exactly when
    the body of the refresh response is not JSON, and [KeyError] exactly
    when it is a JSON object without [access_token]; the response to the
    resource request is never parsed and causes neither. *)
Theorem refresh_reply_decides_exception (settings : Settings)
    (oauth : ZoomOAuth.t) (refresh_token : str) (op : Op) (net : Network) :
  ZoomOAuth.__init__ settings = Returned oauth ->
  let p := call settings refresh_token op in
  let rq := refresh_request oauth refresh_token in
  (outcome p net = Raised JSONDecodeError
   <-> exists r, net [] rq = Answer r /\ resp_json r = None)
  /\ (outcome p net = Raised KeyError
      <-> exists r d, net [] rq = Answer r
                      /\ resp_json r = Some (PyDict d)
                      /\ dict_get (lit "access_token") d = None).
Proof.
  intros Hinit p rq.
  pose proof (outcome_call settings oauth refresh_token op net Hinit) as Hout.
  cbv zeta in Hout. fold rq in Hout. fold p in Hout. rewrite Hout.
  clear Hout.
  assert (Hres : forall tok e,
             (e = JSONDecodeError \/ e = KeyError) ->
             (if well_typed op
              then match net [(rq, net [] rq)] (resource_request op tok) with
                   | Answer r => Returned r
                   | NoAnswer => Raised RequestException
                   end
              else Raised TypeError) <> Raised e).
  { intros tok e He. destruct (well_typed op).
    - destruct (net _ _); [discriminate|].
      destruct He as [-> | ->]; discriminate.
    - destruct He as [-> | ->]; discriminate. }
  destruct (net [] rq) as [r|] eqn:Hrp.
  2:{ cbn. split; (split; [discriminate|]).
      - intros (r & H & _). discriminate H.
      - intros (r & d & H & _). discriminate H. }
  unfold granted_token, refresh_failure.
  destruct (resp_json r) as [v|] eqn:Hj.
  2:{ split; split.
      - intros _. now exists r.
      - reflexivity.
      - discriminate.
      - intros (r' & d & H & Hj' & _). injection H as <-. congruence. }
  assert (Hnone : ~ exists r', Answer r = Answer r' /\ resp_json r' = None).
  { intros (r' & H & Hj'). injection H as <-. congruence. }
  destruct v as [| b | z | s | l | d];
    try (split; (split; [discriminate|]);
         [ intros H; now destruct (Hnone H)
         | intros (r' & d' & H & Hj' & _); injection H as <-; congruence ]).
  destruct (dict_get (lit "access_token") d) as [t|] eqn:Hd.
  - assert (Hkey : ~ exists r' d', Answer r = Answer r'
                     /\ resp_json r' = Some (PyDict d')
                     /\ dict_get (lit "access_token") d' = None).
    { intros (r' & d' & H & Hj' & Hd'). injection H as <-.
      rewrite Hj in Hj'. injection Hj' as <-. congruence. }
    destruct t as [| b | z | s | l | d'];
      try (split; (split; [discriminate|]);
           [ intros H; now destruct (Hnone H)
           | intros H; now destruct (Hkey H) ]).
    split; split.
    + intros H. now destruct (Hres s JSONDecodeError (or_introl eq_refl)).
    + intros H. now destruct (Hnone H).
    + intros H. now destruct (Hres s KeyError (or_intror eq_refl)).
    + intros H. now destruct (Hkey H).
  - split; split.
    + discriminate.
    + intros H. now destruct (Hnone H).
    + intros _. now exists r, d.
    + reflexivity.
Qed.

Lemma refresh_reply_decides_exception_witness :
  outcome (call sample_settings (lit "RT0") (DeleteMeeting (PyStr (lit "123"))))
    rejecting_network
  = Raised KeyError.
Proof.
  apply (refresh_reply_decides_exception sample_settings sample_oauth
           (lit "RT0") (DeleteMeeting (PyStr (lit "123"))) rejecting_network
           eq_refl).
  exists invalid_grant_response. eexists. repeat split.
Defined.

Lemma refresh_request_is_oauth (oauth : ZoomOAuth.t) (refresh_token : str) :
  is_oauth_request (refresh_request oauth refresh_token).
Proof.
  unfold is_oauth_request, refresh_request. cbn [req_method req_url
    req_headers req_params req_json].
  repeat split; try reflexivity; try discriminate.
  now exists (ZoomOAuth.id_secret_encrypted oauth).
Qed.

Lemma resource_request_is_api (op : Op) (tok : str) :
  is_api_request (resource_request op tok).
Proof.
  unfold is_api_request, resource_request. cbn [req_url req_headers
    req_params].
  split; [apply startswith_app|]. split; [now exists tok | reflexivity].
Qed.

Lemma resource_url_query (op : Op) (tok : str) :
  In 63 (req_url (resource_request op tok)) ->
  exists s, path_argument op = Some (PyStr s) /\ In 63 s.
Proof.
  unfold resource_request. cbn [req_url]. intros Hin.
  apply in_app_or in Hin. destruct Hin as [H|H].
  { exfalso. revert H. apply not_In_existsb. reflexivity. }
  assert (Hid : forall prefix i,
             existsb (N.eqb 63) prefix = false ->
             In 63 (prefix ++ id_text i) ->
             exists s, Some i = Some (PyStr s) /\ In 63 s).
  { intros prefix i Hprefix Hin. apply in_app_or in Hin.
    destruct Hin as [Hin|Hin].
    - exfalso. revert Hin. apply not_In_existsb. exact Hprefix.
    - destruct i as [| b' | z' | s' | l' | d']; try (now destruct Hin).
      exists s'. now split. }
  destruct op; cbn [table_path] in H; cbn [path_argument];
    try (exfalso; revert H; apply not_In_existsb; reflexivity);
    (eapply Hid; [|exact H]); reflexivity.
Qed.

(** X7. Every request an operation of ZoomAPI sends is of one of two kinds
    that do not mix.  Either it is the POST to
    [https://zoom.us/oauth/token], with the Basic credential, the refresh
    token among the [params] and no body; or its URL is
    [https://api.zoom.us/v2/] followed by the operation's path, the bearer
    [Authorization] is its only header, no [params] argument is passed,
    and the URL holds a [?] only if the identifier that the caller passed
    holds one.  So the client credential is never sent to the API host,
    and the access token never to the OAuth host. *)
Theorem requests_oauth_or_api (settings : Settings) (refresh_token : str)
    (op : Op) (net : Network) (rq : Request) :
  In rq (requests (call settings refresh_token op) net) ->
  (is_oauth_request rq
   /\ req_url rq = lit "https://zoom.us/oauth/token"
   /\ req_params rq
      = Some [(lit "grant_type", lit "refresh_token");
              (lit "refresh_token", refresh_token)]
   /\ forall kv, In kv (req_headers rq) ->
                 startswith (lit "Bearer ") (snd kv) = false)
  \/ (is_api_request rq
      /\ req_url rq = lit "https://api.zoom.us/v2/" ++ table_path op
      /\ (In 63 (req_url rq) ->
          exists s, path_argument op = Some (PyStr s) /\ In 63 s)
      /\ startswith (lit "https://zoom.us/") (req_url rq) = false
      /\ forall kv, In kv (req_headers rq) ->
                    startswith (lit "Basic ") (snd kv) = false).
Proof.
  intros Hin.
  destruct (init_cases settings) as [[oauth Hinit] | Hinit].
  2:{ unfold requests, exchanges in Hin.
      rewrite (run_call_no_instance settings _ refresh_token op net []
                 Hinit) in Hin. destruct Hin. }
  rewrite (requests_call settings oauth refresh_token op net Hinit) in Hin.
  cbv zeta in Hin.
  assert (Hfirst :
            is_oauth_request (refresh_request oauth refresh_token)
            /\ req_url (refresh_request oauth refresh_token)
               = lit "https://zoom.us/oauth/token"
            /\ req_params (refresh_request oauth refresh_token)
               = Some [(lit "grant_type", lit "refresh_token");
                       (lit "refresh_token", refresh_token)]
            /\ forall kv,
                 In kv (req_headers (refresh_request oauth refresh_token)) ->
                 startswith (lit "Bearer ") (snd kv) = false).
  { split; [apply refresh_request_is_oauth|]. repeat split.
    intros kv [<- | [<- | []]]; reflexivity. }
  assert (Hsecond : forall tok,
            is_api_request (resource_request op tok)
            /\ req_url (resource_request op tok)
               = lit "https://api.zoom.us/v2/" ++ table_path op
            /\ (In 63 (req_url (resource_request op tok)) ->
                exists s, path_argument op = Some (PyStr s) /\ In 63 s)
            /\ startswith (lit "https://zoom.us/")
                 (req_url (resource_request op tok)) = false
            /\ forall kv, In kv (req_headers (resource_request op tok)) ->
                          startswith (lit "Basic ") (snd kv) = false).
  { intros tok. split; [apply resource_request_is_api|].
    split; [reflexivity|]. split; [apply resource_url_query|]. split.
    - reflexivity.
    - intros kv [<- | []]. reflexivity. }
  destruct (granted_token _) as [tok|]; [destruct (well_typed op)|];
    simpl in Hin.
  - destruct Hin as [<- | [<- | []]]; [left; exact Hfirst | right; apply Hsecond].
  - destruct Hin as [<- | []]. left. exact Hfirst.
  - destruct Hin as [<- | []]. left. exact Hfirst.
Qed.

Lemma requests_oauth_or_api_witness :
  is_api_request
    (mkRequest GET (lit "https://api.zoom.us/v2/users")
       [(lit "Authorization", lit "Bearer AT1")] None None).
Proof.
  destruct (requests_oauth_or_api sample_settings (lit "RT1") ListUsers
              granting_network
              (mkRequest GET (lit "https://api.zoom.us/v2/users")
                 [(lit "Authorization", lit "Bearer AT1")] None None))
    as [(_ & Hurl & _) | (H & _)].
  - right. left. reflexivity.
  - discriminate Hurl.
  - exact H.
Defined.

(** An identifier with a [?] brings a query of its own into the URL. *)
Example identifier_with_query :
  map req_url
    (requests
       (ZoomAPI.get_user_details sample_settings (lit "RT1")
          (PyStr (lit "me?x=1")))
       granting_network)
  = [lit "https://zoom.us/oauth/token";
     lit "https://api.zoom.us/v2/users/me?x=1"].
Proof. reflexivity. Qed.

(** X8. Of the provider's reply to the refresh, an operation uses the
    access token and nothing else: two networks whose replies hand over the
    same token (or both none) make it send the same requests, whatever the
    status codes, the other fields of the body (the rotated refresh token,
    the expiry) and the answers to the resource request are. *)
Theorem requests_depend_on_token_only (settings : Settings)
    (oauth : ZoomOAuth.t) (refresh_token : str) (op : Op)
    (net1 net2 : Network) :
  ZoomOAuth.__init__ settings = Returned oauth ->
  granted_token (net1 [] (refresh_request oauth refresh_token))
  = granted_token (net2 [] (refresh_request oauth refresh_token)) ->
  requests (call settings refresh_token op) net1
  = requests (call settings refresh_token op) net2.
Proof.
  intros Hinit Hsame.
  rewrite (requests_call settings oauth refresh_token op net1 Hinit).
  rewrite (requests_call settings oauth refresh_token op net2 Hinit).
  cbv zeta. now rewrite Hsame.
Qed.

Lemma requests_depend_on_token_only_witness :
  requests (call sample_settings (lit "RT1") GetUserZak) granting_network
  = requests (call sample_settings (lit "RT1") GetUserZak) terse_network
  /\ status_code token_response <> status_code terse_token_response.
Proof.
  split; [|discriminate].
  apply (requests_depend_on_token_only sample_settings sample_oauth
           (lit "RT1") GetUserZak granting_network terse_network eq_refl).
  reflexivity.
Defined.

(** X9. Nothing is kept between calls.  Two operations run one after the
    other, the first answered by the provider, send four requests: refresh,
    resource, refresh, resource.  The second refresh carries the refresh
    token its caller passed, not the one the first refresh response may
    have rotated in, and the second resource request carries the token of
    the second refresh, not that of the first. *)
Theorem every_call_refreshes (settings : Settings) (oauth : ZoomOAuth.t)
    (R1 R2 : str) (op1 op2 : Op) (net : Network) (tok1 tok2 : str)
    (r1 : Response) :
  ZoomOAuth.__init__ settings = Returned oauth ->
  well_typed op1 = true -> well_typed op2 = true ->
  let rq1 := refresh_request oauth R1 in
  let rs1 := resource_request op1 tok1 in
  let rq2 := refresh_request oauth R2 in
  let seen := [(rq1, net [] rq1); (rs1, Answer r1)] in
  granted_token (net [] rq1) = Some tok1 ->
  net [(rq1, net [] rq1)] rs1 = Answer r1 ->
  granted_token (net seen rq2) = Some tok2 ->
  requests (in_sequence (call settings R1 op1) (call settings R2 op2)) net
  = [rq1; rs1; rq2; resource_request op2 tok2].
Proof.
  intros Hinit Hty1 Hty2 rq1 rs1 rq2 seen Htok1 Hans Htok2.
  unfold requests, exchanges, in_sequence.
  rewrite run_bind, (run_call settings oauth R1 op1 net Hinit).
  cbv zeta. fold rq1. rewrite Htok1, Hty1. fold rs1. rewrite Hans.
  rewrite (run_call_from settings oauth R2 op2 net _ Hinit).
  cbv zeta. fold rq2. fold seen. rewrite Htok2, Hty2. reflexivity.
Qed.

Lemma every_call_refreshes_witness :
  requests
    (in_sequence (call sample_settings (lit "RT1") GetMeetings)
       (call sample_settings (lit "RT1") GetMeetings))
    granting_network
  = [refresh_request sample_oauth (lit "RT1");
     resource_request GetMeetings (lit "AT1");
     refresh_request sample_oauth (lit "RT1");
     resource_request GetMeetings (lit "AT1")].
Proof.
  apply (every_call_refreshes sample_settings sample_oauth (lit "RT1")
           (lit "RT1") GetMeetings GetMeetings granting_network (lit "AT1")
           (lit "AT1") not_found_response eq_refl eq_refl eq_refl eq_refl
           eq_refl eq_refl).
Defined.

(** ** More of ZoomOAuth *)

(** X10. [revoke_token] issues one POST to [https://zoom.us/oauth/revoke]
    with the Basic credential and the token as its only query parameter,
    and returns whatever the provider answers, of any status (the answer to
    revoking a token that is already revoked included); it raises only when
    the call into [requests] does. *)
Theorem revoke_token_returns_response (oauth : ZoomOAuth.t)
    (access_token : str) (net : Network) :
  let p := ZoomOAuth.revoke_token oauth access_token in
  let rq :=
    mkRequest POST (lit "https://zoom.us/oauth/revoke")
      [(lit "Content-Type", lit "application/x-www-form-urlencoded");
       (lit "Authorization",
        lit "Basic " ++ ZoomOAuth.id_secret_encrypted oauth)]
      (Some [(lit "token", access_token)])
      None in
  requests p net = [rq]
  /\ (forall r, net [] rq = Answer r -> outcome p net = Returned r)
  /\ (forall e, outcome p net = Raised e ->
        e = RequestException /\ net [] rq = NoAnswer).
Proof.
  intros p rq.
  assert (Hp : p = Send rq (fun r => Ret r)) by reflexivity.
  rewrite Hp, requests_single, outcome_single.
  split; [reflexivity|]. split.
  - intros r ->. reflexivity.
  - intros e. destruct (net [] rq); [discriminate|].
    intros H. injection H as <-. now split.
Qed.

Lemma revoke_token_returns_response_witness :
  outcome (ZoomOAuth.revoke_token sample_oauth (lit "AT1")) rejecting_network
  = Returned invalid_grant_response.
Proof.
  apply (revoke_token_returns_response sample_oauth (lit "AT1")
           rejecting_network).
  reflexivity.
Defined.

(** X11. [get_access_token] by itself never fails on a refused refresh: it
    issues the one refresh POST (grant type and refresh token as query
    parameters, no redirect URI, no body) and returns the provider's
    response untouched, whether or not its body is JSON or holds a token.
    The exceptions of a refused refresh arise in the methods of ZoomAPI,
    which subscript that response. *)
Theorem get_access_token_returns_response (oauth : ZoomOAuth.t)
    (refresh_token : str) (net : Network) :
  let p := ZoomOAuth.get_access_token oauth refresh_token in
  let rq := refresh_request oauth refresh_token in
  requests p net = [rq]
  /\ keys (match req_params rq with Some d => d | None => [] end)
     = [lit "grant_type"; lit "refresh_token"]
  /\ (forall r, net [] rq = Answer r -> outcome p net = Returned r)
  /\ (forall e, outcome p net = Raised e ->
        e = RequestException /\ net [] rq = NoAnswer).
Proof.
  intros p rq. subst p. rewrite get_access_token_request.
  rewrite requests_single, outcome_single. fold rq.
  split; [reflexivity|]. split; [reflexivity|]. split.
  - intros r ->. reflexivity.
  - intros e. destruct (net [] rq); [discriminate|].
    intros H. injection H as <-. now split.
Qed.

Lemma get_access_token_returns_response_witness :
  outcome (ZoomOAuth.get_access_token sample_oauth (lit "RT0"))
    rejecting_network
  = Returned invalid_grant_response
  /\ outcome (call sample_settings (lit "RT0") GetUserZak) rejecting_network
     = Raised KeyError.
Proof.
  split; [|reflexivity].
  apply (get_access_token_returns_response sample_oauth (lit "RT0")
           rejecting_network).
  reflexivity.
Defined.

(** X12. The two halves of the authorization-code flow agree on the
    redirect URI: the [redirect_uri] that [get_first_token] sends along with
    the code and the grant type [authorization_code] is the very string
    with which the URL of [request_authorization_code] ends. *)
Theorem redirect_uri_consistent (settings : Settings) (oauth : ZoomOAuth.t)
    (code : str) (net : Network) :
  exists rq params before,
    requests (ZoomOAuth.get_first_token settings oauth code) net = [rq]
    /\ req_params rq = Some params
    /\ keys params = [lit "code"; lit "grant_type"; lit "redirect_uri"]
    /\ dict_get (lit "code") params = Some code
    /\ dict_get (lit "grant_type") params = Some (lit "authorization_code")
    /\ dict_get (lit "redirect_uri") params
       = Some (Zoom_Redirect_URI settings)
    /\ req_json rq = None
    /\ ZoomOAuth.request_authorization_code settings oauth
       = before ++ lit "redirect_uri=" ++ Zoom_Redirect_URI settings.
Proof.
  rewrite get_first_token_request, requests_single.
  eexists. eexists.
  exists (lit "https://zoom.us/oauth/authorize?client_id="
          ++ ClientID settings ++ lit "&response_type=code&").
  split; [reflexivity|]. split; [reflexivity|]. repeat split.
  rewrite authorization_url_shape, <- !app_assoc. reflexivity.
Qed.

(** ** The query of the authorization URL, taken apart *)







(** An [&] in the client id reaches the receiver as a parameter of its
    own. *)
Example authorization_url_query_injected :
  parse_query
    (lit "client_id=a&b=c&response_type=code&redirect_uri=https://example.com/cb?next=/home&x=1")
  = [(lit "client_id", Some (lit "a")); (lit "b", Some (lit "c"));
     (lit "response_type", Some (lit "code"));
     (lit "redirect_uri", Some (lit "https://example.com/cb?next=/home"));
     (lit "x", Some (lit "1"))].
Proof. reflexivity. Qed.

(** ** UTF-8 decodes back *)

(** A number is its high part shifted back, together with its low bits. *)
Lemma split_low (c k : N) :
  N.lor (N.shiftl (N.shiftr c k) k) (N.land c (N.ones k)) = c.
Proof.
  apply N.bits_inj. intros i. rewrite N.lor_spec, N.land_spec.
  destruct (N.lt_ge_cases i k) as [Hlt|Hge].
  - rewrite N.shiftl_spec_low by exact Hlt.
    rewrite N.ones_spec_low by exact Hlt.
    cbn [orb]. apply andb_true_r.
  - rewrite N.shiftl_spec_high' by exact Hge. rewrite N.shiftr_spec'.
    rewrite N.ones_spec_high by exact Hge.
    rewrite andb_false_r, orb_false_r. f_equal. lia.
Qed.

Lemma recompose_2 (c : N) :
  N.lor (N.shiftl (N.shiftr c 6) 6) (N.land c 0x3F) = c.
Proof. exact (split_low c 6). Qed.

Lemma recompose_3 (c : N) :
  N.lor (N.shiftl (N.shiftr c 12) 12)
    (N.lor (N.shiftl (N.land (N.shiftr c 6) 0x3F) 6) (N.land c 0x3F)) = c.
Proof.
  pose proof (recompose_2 c) as H0.
  pose proof (recompose_2 (N.shiftr c 6)) as H1.
  rewrite N.shiftr_shiftr in H1. change (6 + 6) with 12 in H1.
  rewrite <- H1 in H0.
  rewrite N.shiftl_lor, N.shiftl_shiftl, <- N.lor_assoc in H0.
  exact H0.
Qed.

Lemma recompose_4 (c : N) :
  N.lor (N.shiftl (N.shiftr c 18) 18)
    (N.lor (N.shiftl (N.land (N.shiftr c 12) 0x3F) 12)
       (N.lor (N.shiftl (N.land (N.shiftr c 6) 0x3F) 6) (N.land c 0x3F)))
  = c.
Proof.
  pose proof (recompose_3 c) as H0.
  pose proof (recompose_2 (N.shiftr c 12)) as H1.
  rewrite N.shiftr_shiftr in H1. change (12 + 6) with 18 in H1.
  rewrite <- H1 in H0.
  rewrite N.shiftl_lor, N.shiftl_shiftl, <- N.lor_assoc in H0.
  exact H0.
Qed.

Lemma land_63_sextet (x : N) : N.land x 0x3F < 64.
Proof.
  change 0x3F with (N.ones 6). rewrite N.land_ones.
  apply N.mod_lt. discriminate.
Qed.

Lemma continuation_octet (x : N) :
  x < 64 ->
  is_cont (N.lor 0x80 x) = true /\ N.land (N.lor 0x80 x) 0x3F = x.
Proof.
  intros Hx.
  assert (Hall : forallb
            (fun x => is_cont (N.lor 0x80 x)
                      && (N.land (N.lor 0x80 x) 0x3F =? x))
            (below 64) = true) by (vm_compute; reflexivity).
  pose proof (below_complete 64 _ Hall x Hx) as H. cbv beta in H.
  apply andb_true_iff in H as [H1 H2]. apply N.eqb_eq in H2. now split.
Qed.

Lemma lead_octet_2 (y : N) :
  2 <= y -> y < 32 ->
  let b0 := N.lor 0xC0 y in
  (b0 <? 0x80) = false
  /\ (0xC2 <=? b0) && (b0 <=? 0xDF) = true
  /\ N.land b0 0x1F = y.
Proof.
  intros Hlo Hhi b0. subst b0.
  assert (Hall : forallb
            (fun y => (y <? 2)
                      || (negb (N.lor 0xC0 y <? 0x80)
                          && ((0xC2 <=? N.lor 0xC0 y)
                              && (N.lor 0xC0 y <=? 0xDF))
                          && (N.land (N.lor 0xC0 y) 0x1F =? y)))
            (below 32) = true) by (vm_compute; reflexivity).
  pose proof (below_complete 32 _ Hall y Hhi) as H. cbv beta in H.
  apply orb_true_iff in H as [H|H]; [apply N.ltb_lt in H; lia|].
  apply andb_true_iff in H as [H H3]. apply andb_true_iff in H as [H1 H2].
  apply negb_true_iff in H1. apply N.eqb_eq in H3. now repeat split.
Qed.

Lemma lead_octet_3 (y : N) :
  y < 16 ->
  let b0 := N.lor 0xE0 y in
  (b0 <? 0x80) = false
  /\ (0xC2 <=? b0) && (b0 <=? 0xDF) = false
  /\ (0xE0 <=? b0) && (b0 <=? 0xEF) = true
  /\ N.land b0 0x0F = y.
Proof.
  intros Hhi b0. subst b0.
  assert (Hall : forallb
            (fun y => negb (N.lor 0xE0 y <? 0x80)
                      && negb ((0xC2 <=? N.lor 0xE0 y)
                               && (N.lor 0xE0 y <=? 0xDF))
                      && ((0xE0 <=? N.lor 0xE0 y)
                          && (N.lor 0xE0 y <=? 0xEF))
                      && (N.land (N.lor 0xE0 y) 0x0F =? y))
            (below 16) = true) by (vm_compute; reflexivity).
  pose proof (below_complete 16 _ Hall y Hhi) as H. cbv beta in H.
  apply andb_true_iff in H as [H H4]. apply andb_true_iff in H as [H H3].
  apply andb_true_iff in H as [H1 H2].
  apply negb_true_iff in H1, H2. apply N.eqb_eq in H4. now repeat split.
Qed.

Lemma lead_octet_4 (y : N) :
  y < 5 ->
  let b0 := N.lor 0xF0 y in
  (b0 <? 0x80) = false
  /\ (0xC2 <=? b0) && (b0 <=? 0xDF) = false
  /\ (0xE0 <=? b0) && (b0 <=? 0xEF) = false
  /\ (0xF0 <=? b0) && (b0 <=? 0xF4) = true
  /\ N.land b0 0x07 = y.
Proof.
  intros Hhi b0. subst b0.
  assert (Hall : forallb
            (fun y => negb (N.lor 0xF0 y <? 0x80)
                      && negb ((0xC2 <=? N.lor 0xF0 y)
                               && (N.lor 0xF0 y <=? 0xDF))
                      && negb ((0xE0 <=? N.lor 0xF0 y)
                               && (N.lor 0xF0 y <=? 0xEF))
                      && ((0xF0 <=? N.lor 0xF0 y)
                          && (N.lor 0xF0 y <=? 0xF4))
                      && (N.land (N.lor 0xF0 y) 0x07 =? y))
            (below 5) = true) by (vm_compute; reflexivity).
  pose proof (below_complete 5 _ Hall y Hhi) as H. cbv beta in H.
  apply andb_true_iff in H as [H H5]. apply andb_true_iff in H as [H H4].
  apply andb_true_iff in H as [H H3]. apply andb_true_iff in H as [H1 H2].
  apply negb_true_iff in H1, H2, H3. apply N.eqb_eq in H5.
  now repeat split.
Qed.

Lemma shiftr_below (c k bound : N) :
  c < 2 ^ k * bound -> N.shiftr c k < bound.
Proof.
  intros H. rewrite N.shiftr_div_pow2.
  apply N.Div0.div_lt_upper_bound. exact H.
Qed.

Lemma utf8_decode_2 (b0 b1 : N) (rest : bytes) :
  (b0 <? 0x80) = false ->
  (0xC2 <=? b0) && (b0 <=? 0xDF) = true ->
  is_cont b1 = true ->
  utf8_decode (b0 :: b1 :: rest)
  = option_map
      (cons (N.lor (N.shiftl (N.land b0 0x1F) 6) (N.land b1 0x3F)))
      (utf8_decode rest).
Proof. intros H1 H2 H3. cbn [utf8_decode]. now rewrite H1, H2, H3. Qed.

Lemma utf8_decode_3 (b0 b1 b2 : N) (rest : bytes) :
  let c := N.lor (N.shiftl (N.land b0 0x0F) 12)
             (N.lor (N.shiftl (N.land b1 0x3F) 6) (N.land b2 0x3F)) in
  (b0 <? 0x80) = false ->
  (0xC2 <=? b0) && (b0 <=? 0xDF) = false ->
  (0xE0 <=? b0) && (b0 <=? 0xEF) = true ->
  is_cont b1 = true -> is_cont b2 = true ->
  (0x800 <=? c) = true -> is_surrogate c = false ->
  utf8_decode (b0 :: b1 :: b2 :: rest)
  = option_map (cons c) (utf8_decode rest).
Proof.
  intros c H1 H2 H3 H4 H5 H6 H7. cbn [utf8_decode]. fold c.
  now rewrite H1, H2, H3, H4, H5, H6, H7.
Qed.

Lemma utf8_decode_4 (b0 b1 b2 b3 : N) (rest : bytes) :
  let c := N.lor (N.shiftl (N.land b0 0x07) 18)
             (N.lor (N.shiftl (N.land b1 0x3F) 12)
                (N.lor (N.shiftl (N.land b2 0x3F) 6) (N.land b3 0x3F))) in
  (b0 <? 0x80) = false ->
  (0xC2 <=? b0) && (b0 <=? 0xDF) = false ->
  (0xE0 <=? b0) && (b0 <=? 0xEF) = false ->
  (0xF0 <=? b0) && (b0 <=? 0xF4) = true ->
  is_cont b1 = true -> is_cont b2 = true -> is_cont b3 = true ->
  (0x10000 <=? c) = true -> (c <? 0x110000) = true ->
  utf8_decode (b0 :: b1 :: b2 :: b3 :: rest)
  = option_map (cons c) (utf8_decode rest).
Proof.
  intros c H1 H2 H3 H4 H5 H6 H7 H8 H9. cbn [utf8_decode]. fold c.
  now rewrite H1, H2, H3, H4, H5, H6, H7, H8, H9.
Qed.

Lemma utf8_decode_encode_char (c : N) (b rest : bytes) :
  utf8_encode_char c = Some b ->
  utf8_decode (b ++ rest) = option_map (cons c) (utf8_decode rest).
Proof.
  unfold utf8_encode_char.
  destruct (c <? 0x80) eqn:H1.
  { intros H. apply Some_inj in H. subst b. cbn [app utf8_decode].
    now rewrite H1. }
  destruct (c <? 0x800) eqn:H2.
  { intros H. apply Some_inj in H. subst b. cbn [app].
    apply N.ltb_ge in H1. apply N.ltb_lt in H2.
    assert (Hhi : N.shiftr c 6 < 32)
      by (apply shiftr_below; change (2 ^ 6 * 32) with 2048; lia).
    assert (Hlo : 2 <= N.shiftr c 6).
    { rewrite N.shiftr_div_pow2. apply N.div_le_lower_bound; [discriminate|].
      change (2 ^ 6 * 2) with 128. lia. }
    destruct (lead_octet_2 _ Hlo Hhi) as (L1 & L2 & L3).
    destruct (continuation_octet _ (land_63_sextet c)) as (C1 & C2).
    rewrite (utf8_decode_2 _ _ rest L1 L2 C1), L3, C2, recompose_2.
    reflexivity. }
  destruct (c <? 0x10000) eqn:H3.
  { destruct (is_surrogate c) eqn:Hs; [discriminate|].
    intros H. apply Some_inj in H. subst b. cbn [app].
    apply N.ltb_ge in H2. apply N.ltb_lt in H3.
    assert (Hhi : N.shiftr c 12 < 16)
      by (apply shiftr_below; change (2 ^ 12 * 16) with 65536; lia).
    destruct (lead_octet_3 _ Hhi) as (L1 & L2 & L3 & L4).
    destruct (continuation_octet _ (land_63_sextet (N.shiftr c 6)))
      as (C1 & C2).
    destruct (continuation_octet _ (land_63_sextet c)) as (D1 & D2).
    rewrite (utf8_decode_3 _ _ _ rest L1 L2 L3 C1 D1);
      rewrite L4, C2, D2, recompose_3;
      [reflexivity | now apply N.leb_le | exact Hs]. }
  destruct (c <? 0x110000) eqn:H4; [|discriminate].
  intros H. apply Some_inj in H. subst b. cbn [app].
  apply N.ltb_ge in H3.
  assert (Hhi : N.shiftr c 18 < 5).
  { apply shiftr_below. change (2 ^ 18 * 5) with 1310720.
    apply N.ltb_lt in H4. lia. }
  destruct (lead_octet_4 _ Hhi) as (L1 & L2 & L3 & L4 & L5).
  destruct (continuation_octet _ (land_63_sextet (N.shiftr c 12)))
    as (C1 & C2).
  destruct (continuation_octet _ (land_63_sextet (N.shiftr c 6)))
    as (D1 & D2).
  destruct (continuation_octet _ (land_63_sextet c)) as (E1 & E2).
  rewrite (utf8_decode_4 _ _ _ _ rest L1 L2 L3 L4 C1 D1 E1);
    rewrite L5, C2, D2, E2, recompose_4;
    [reflexivity | now apply N.leb_le | exact H4].
Qed.

(** Decoding what [str.encode('utf-8')] produced gives the string back. *)
Lemma utf8_decode_encode (s : str) (raw : bytes) :
  utf8_encode s = Some raw -> utf8_decode raw = Some s.
Proof.
  revert raw. induction s as [|c s IH]; simpl; intros raw H.
  - apply Some_inj in H. now subst raw.
  - destruct (utf8_encode_char c) as [b|] eqn:Hc; [|discriminate].
    destruct (utf8_encode s) as [bs|]; [|discriminate].
    apply Some_inj in H. subst raw.
    rewrite (utf8_decode_encode_char c b bs Hc), (IH bs eq_refl).
    reflexivity.
Qed.

Lemma utf8_encode_injective (s t : str) (raw : bytes) :
  utf8_encode s = Some raw -> utf8_encode t = Some raw -> s = t.
Proof.
  intros Hs Ht. apply utf8_decode_encode in Hs, Ht. congruence.
Qed.

Lemma b64encode_injective (a b : bytes) :
  Forall (fun x => x < 256) a -> Forall (fun x => x < 256) b ->
  b64encode a = b64encode b -> a = b.
Proof.
  intros Ha Hb H. apply b64decode_b64encode in Ha, Hb.
  rewrite H in Ha. congruence.
Qed.

(** Where the first separator stands decides both sides. *)
Lemma app_separator_injective (sep : N) (a b a' b' : str) :
  ~ In sep a -> ~ In sep a' ->
  a ++ sep :: b = a' ++ sep :: b' -> a = a' /\ b = b'.
Proof.
  revert a'. induction a as [|x a IH]; intros [|y a'] Ha Ha' H; simpl in H.
  - injection H as ->. now split.
  - injection H as <- _. destruct Ha'. now left.
  - injection H as -> _. destruct Ha. now left.
  - injection H as -> H.
    destruct (IH a') as [-> ->]; try exact H.
    + intros Hin. apply Ha. now right.
    + intros Hin. apply Ha'. now right.
    + now split.
Qed.

(** X14. The Basic credential determines the pair it was made from as long
    as client ids hold no colon: two constructed instances with the same
    [id_secret_encrypted] come from the same client id and the same client
    secret.  With a colon in a client id the pair is no longer determined:
    [a:b] with secret [c] and [a] with secret [b:c] give the same
    attribute. *)
Theorem credential_determined (settings1 settings2 : Settings)
    (oauth1 oauth2 : ZoomOAuth.t) :
  ZoomOAuth.__init__ settings1 = Returned oauth1 ->
  ZoomOAuth.__init__ settings2 = Returned oauth2 ->
  ~ In 58 (ClientID settings1) ->
  ~ In 58 (ClientID settings2) ->
  ZoomOAuth.id_secret_encrypted oauth1 = ZoomOAuth.id_secret_encrypted oauth2 ->
  ClientID settings1 = ClientID settings2
  /\ ClientSecret settings1 = ClientSecret settings2.
Proof.
  intros H1 H2 Hc1 Hc2 Heq.
  apply init_returned in H1 as (raw1 & Hraw1 & Hid1).
  apply init_returned in H2 as (raw2 & Hraw2 & Hid2).
  rewrite Hid1, Hid2 in Heq.
  apply b64encode_injective in Heq;
    [| now apply utf8_encode_octets in Hraw1
     | now apply utf8_encode_octets in Hraw2].
  subst raw2.
  pose proof (utf8_encode_injective _ _ _ Hraw1 Hraw2) as Hsame.
  now apply (app_separator_injective 58) in Hsame.
Qed.

Lemma credential_determined_witness :
  ClientID sample_settings = ClientID moved_settings
  /\ ClientSecret sample_settings = ClientSecret moved_settings.
Proof.
  apply (credential_determined sample_settings moved_settings sample_oauth
           sample_oauth eq_refl eq_refl).
  - apply not_In_existsb. reflexivity.
  - apply not_In_existsb. reflexivity.
  - reflexivity.
Defined.

Example credential_colon_ambiguous :
  ZoomOAuth.__init__ colon_settings_1 = ZoomOAuth.__init__ colon_settings_2
  /\ ClientID colon_settings_1 <> ClientID colon_settings_2.
Proof. split; [reflexivity | discriminate]. Qed.

(** ** More of ZoomAPI *)

(** X15. For every input, [create_meeting] sends, once the refresh has
    handed over a token, one POST to [users/me/meetings] whose JSON body
    holds exactly the seven keys topic, start_time, duration, timezone,
    agenda, settings and type with the arguments as values; a [type] that
    is passed replaces the default 2, and there is no [recurrence] key,
    unlike in [update_meeting].  Without a token the refresh POST is the
    only request. *)
Theorem create_meeting_request (settings : Settings) (oauth : ZoomOAuth.t)
    (R : str)
    (meeting_name start_time duration timezone agenda settings' : pyval)
    (type : option pyval) (net : Network) :
  ZoomOAuth.__init__ settings = Returned oauth ->
  let p := ZoomAPI.create_meeting settings R meeting_name start_time
             duration timezone agenda settings' type in
  let rq := refresh_request oauth R in
  (forall tok, granted_token (net [] rq) = Some tok ->
     exists post body,
       requests p net = [rq; post]
       /\ req_method post = POST
       /\ req_url post = ZoomAPI.__api_url ++ lit "users/me/meetings"
       /\ req_headers post = [(lit "Authorization", lit "Bearer " ++ tok)]
       /\ req_params post = None
       /\ req_json post = Some (PyDict body)
       /\ keys body
          = map lit ["topic"; "start_time"; "duration"; "timezone";
                     "agenda"; "settings"; "type"]%string
       /\ map (fun k => dict_get k body) (keys body)
          = map Some
              [meeting_name; start_time; duration; timezone; agenda;
               settings';
               match type with Some v => v | None => PyInt 2 end]
       /\ dict_get (lit "recurrence") body = None)
  /\ (granted_token (net [] rq) = None -> requests p net = [rq]).
Proof.
  intros Hinit p rq.
  pose proof (requests_call settings oauth R
                (CreateMeeting meeting_name start_time duration timezone
                   agenda settings' type)
                net Hinit) as Hrq.
  cbv zeta in Hrq. fold rq in Hrq.
  change (call settings R
            (CreateMeeting meeting_name start_time duration timezone agenda
               settings' type))
    with p in Hrq.
  split.
  - intros tok Htok. rewrite Htok in Hrq.
    do 2 eexists. split; [exact Hrq|]. repeat split.
  - intros Hnone. rewrite Hnone in Hrq. exact Hrq.
Qed.

Lemma create_meeting_request_witness :
  exists post body,
    requests
      (ZoomAPI.create_meeting sample_settings (lit "RT1")
         (PyStr (lit "Retro")) (PyStr (lit "2024-02-02T15:00:00Z"))
         (PyInt 45) (PyStr (lit "UTC")) (PyStr (lit "weekly")) (PyDict [])
         (Some (PyInt 8)))
      granting_network
    = [refresh_request sample_oauth (lit "RT1"); post]
    /\ req_json post = Some (PyDict body)
    /\ dict_get (lit "type") body = Some (PyInt 8).
Proof.
  destruct (create_meeting_request sample_settings sample_oauth (lit "RT1")
              (PyStr (lit "Retro")) (PyStr (lit "2024-02-02T15:00:00Z"))
              (PyInt 45) (PyStr (lit "UTC")) (PyStr (lit "weekly"))
              (PyDict []) (Some (PyInt 8)) granting_network eq_refl)
    as [H _].
  destruct (H (lit "AT1") eq_refl)
    as (post & body & Hrq & _ & _ & _ & _ & Hjson & Hkeys & Hvals & _).
  exists post, body. split; [exact Hrq|]. split; [exact Hjson|].
  rewrite Hkeys in Hvals. cbn [map] in Hvals.
  injection Hvals as _ _ _ _ _ _ Htype. exact Htype.
Defined.

Lemma run_call_same_resource (settings : Settings) (refresh_token : str)
    (op1 op2 : Op) (net : Network) (hist : list Exchange) :
  well_typed op1 = well_typed op2 ->
  (forall tok, resource_request op1 tok = resource_request op2 tok) ->
  run (call settings refresh_token op1) net hist
  = run (call settings refresh_token op2) net hist.
Proof.
  intros Hty Hres.
  destruct (init_cases settings) as [[oauth Hinit] | Hinit].
  - rewrite !(run_call_from settings oauth refresh_token _ net hist Hinit).
    cbv zeta. rewrite Hty.
    destruct (granted_token _) as [tok|]; [|reflexivity].
    now rewrite Hres.
  - now rewrite !(run_call_no_instance settings _ refresh_token _ net hist
                    Hinit).
Qed.

(** X16. The identifier is spliced into the path as it is, with no
    escaping: for every string [user_id], [get_user_details] requests the
    URL [https://api.zoom.us/v2/users/] followed by [user_id] itself.  So
    an identifier with a slash reaches another endpoint: whatever the
    settings, the refresh token, the network and the history,
    [get_user_details] with [user_id] "me/zak" behaves exactly as
    [get_user_zak], and with "me/meetings" exactly as [get_meetings]. *)
Theorem identifier_spliced_verbatim (settings : Settings)
    (refresh_token : str) (net : Network) (hist : list Exchange) :
  (forall oauth user_id tok,
      ZoomOAuth.__init__ settings = Returned oauth ->
      granted_token (net [] (refresh_request oauth refresh_token))
      = Some tok ->
      map req_url
        (requests
           (ZoomAPI.get_user_details settings refresh_token (PyStr user_id))
           net)
      = [lit "https://zoom.us/oauth/token";
         lit "https://api.zoom.us/v2/users/" ++ user_id])
  /\ run (ZoomAPI.get_user_details settings refresh_token
            (PyStr (lit "me/zak"))) net hist
     = run (ZoomAPI.get_user_zak settings refresh_token) net hist
  /\ run (ZoomAPI.get_user_details settings refresh_token
            (PyStr (lit "me/meetings"))) net hist
     = run (ZoomAPI.get_meetings settings refresh_token) net hist.
Proof.
  split; [|split].
  - intros oauth user_id tok Hinit Htok.
    pose proof (requests_call settings oauth refresh_token
                  (GetUserDetails (PyStr user_id)) net Hinit) as Hrq.
    cbv zeta in Hrq. rewrite Htok in Hrq.
    change (call settings refresh_token (GetUserDetails (PyStr user_id)))
      with (ZoomAPI.get_user_details settings refresh_token (PyStr user_id))
      in Hrq.
    rewrite Hrq. reflexivity.
  - apply (run_call_same_resource settings refresh_token
             (GetUserDetails (PyStr (lit "me/zak"))) GetUserZak net hist);
      reflexivity.
  - apply (run_call_same_resource settings refresh_token
             (GetUserDetails (PyStr (lit "me/meetings"))) GetMeetings net
             hist); reflexivity.
Qed.

Lemma identifier_spliced_verbatim_witness :
  map req_url
    (requests
       (ZoomAPI.get_user_details sample_settings (lit "RT1")
          (PyStr (lit "me/zak")))
       granting_network)
  = [lit "https://zoom.us/oauth/token";
     lit "https://api.zoom.us/v2/users/me/zak"].
Proof.
  apply (proj1 (identifier_spliced_verbatim sample_settings (lit "RT1")
                  granting_network [])
           sample_oauth (lit "me/zak") (lit "AT1") eq_refl eq_refl).
Defined.

Lemma at_most_two_requests_witness :
  req_url (refresh_request sample_oauth (lit "RT1"))
  = lit "https://zoom.us/oauth/token".
Proof.
  apply (at_most_two_requests sample_settings (lit "RT1") ListUsers
           granting_network).
  reflexivity.
Defined.
